(** * Moss web server: [backend/src/server.c]

    A shallow embedding of the request/response core of the server
    (send_response, resp_404, resp_file, handle_get_request,
    handle_post_request, handle_http_request and main) together with the
    parts of the C library the code leans on (C strings, snprintf/printf
    formatting, sscanf scanning), followed by the properties of the
    specification that concern them. *)

From Stdlib Require Import String Ascii ZArith List Lia Bool DecimalString.
Import ListNotations.
Local Open Scope string_scope.
Local Open Scope Z_scope.

(** ** C strings over raw memory *)

Module CString.

(** The bytes found at an address, in order.  A [char *] or [void *] of the
    source is modelled by the memory it points to. *)
Definition mem := string.

Definition NUL : ascii := "000"%char.

(** Source text of a C literal: [\n], [\r], [\t], [\0] and [\\] are
    replaced by the character they denote. *)
Fixpoint esc (s : string) : string :=
  match s with
  | "" => ""
  | String c rest =>
      if Ascii.eqb c "\" then
        match rest with
        | String d rest' =>
            (if Ascii.eqb d "n" then String "010"
             else if Ascii.eqb d "r" then String "013"
             else if Ascii.eqb d "t" then String "009"
             else if Ascii.eqb d "0" then String NUL
             else String d) (esc rest')
        | "" => String c ""
        end
      else String c (esc rest)
  end.

Fixpoint has_nul (m : mem) : bool :=
  match m with
  | "" => false
  | String c rest => if Ascii.eqb c NUL then true else has_nul rest
  end.

(** The characters before the first NUL (all of them when there is none). *)
Fixpoint until_nul (m : mem) : string :=
  match m with
  | "" => ""
  | String c rest => if Ascii.eqb c NUL then "" else String c (until_nul rest)
  end.

(** Reading a C string at an address: the characters up to the terminator.
    [None] when the memory holds no terminator: the read runs off the end
    of the object, which C leaves undefined. *)
Definition c_str (m : mem) : option string :=
  if has_nul m then Some (until_nul m) else None.

(** The memory of a string literal: its characters and the terminator. *)
Definition lit (s : string) : mem := s ++ String NUL "".

(** Lengths and counts are C ints, hence [Z]. *)
Definition strlen (s : string) : Z := Z.of_nat (String.length s).

(** The first [n] characters of [s] (all of [s] when it is shorter). *)
Fixpoint take (n : Z) (s : string) : string :=
  match s with
  | "" => ""
  | String c rest => if n <=? 0 then "" else String c (take (n - 1) rest)
  end.

(** [s] without its first [n] characters. *)
Fixpoint drop (n : Z) (s : string) : string :=
  match s with
  | "" => ""
  | String _ rest => if n <=? 0 then s else drop (n - 1) rest
  end.

Fixpoint nuls (n : nat) : mem :=
  match n with
  | O => ""
  | S n' => String NUL (nuls n')
  end.

(** A zeroed object of [n] bytes. *)
Definition zeroed (n : Z) : mem := nuls (Z.to_nat n).

(** [src] copied over the first bytes of [dst]. *)
Definition overwrite (dst : mem) (src : string) : mem :=
  src ++ drop (strlen src) dst.

(** Storing the string [tok] and its terminator in an array of [cap] bytes
    holding [dst]; [None] when [tok] and the terminator do not fit, a write
    past the end of the array. *)
Definition store (cap : Z) (dst : mem) (tok : string) : option mem :=
  if strlen tok + 1 <=? cap
  then Some (overwrite dst (lit tok))
  else None.

(** [isspace] in the C locale: space, and \t \n \v \f \r. *)
Definition isspace (c : ascii) : bool :=
  let n := nat_of_ascii c in
  ((n =? 32) || ((9 <=? n) && (n <=? 13)))%nat.

Fixpoint has_space (s : string) : bool :=
  match s with
  | "" => false
  | String c rest => isspace c || has_space rest
  end.

Definition code (c : ascii) : Z := Z.of_N (N_of_ascii c).

(** Comparison of two strings as [strcmp] does it: zero when they are
    equal, otherwise the difference of the first two characters that
    differ, as unsigned chars (the terminator counting as 0). *)
Fixpoint compare_chars (a b : string) : Z :=
  match a, b with
  | "", "" => 0
  | "", String d _ => - code d
  | String c _, "" => code c
  | String c a', String d b' =>
      if Ascii.eqb c d then compare_chars a' b' else code c - code d
  end.

(** [strcmp(p, q)] on two pointers. *)
Definition strcmp (p q : mem) : option Z :=
  match c_str p, c_str q with
  | Some a, Some b => Some (compare_chars a b)
  | _, _ => None
  end.

End CString.
Import CString.

(** ** Formatted output and input *)

Module Stdio.

(** An argument of the variadic part of a printf-family call. *)
Inductive arg :=
| ArgS (p : mem)      (* a [char *], read by [%s] *)
| ArgD (n : Z).       (* an [int], read by [%d] *)

(** [%d]: the decimal numeral of an int, with a minus sign when negative. *)
Definition dec (n : Z) : string := NilZero.string_of_int (Z.to_int n).

(** The text a printf-family function produces for [fmt] and [args].
    Only the conversions the server uses are interpreted; [None] when a
    conversion finds no argument of its type, or a [%s] argument is not a
    terminated string. *)
Fixpoint format (fmt : string) (args : list arg) : option string :=
  match fmt with
  | "" => Some ""
  | String c fmt' =>
      if Ascii.eqb c "%" then
        match fmt' with
        | String d fmt'' =>
            if Ascii.eqb d "s" then
              match args with
              | ArgS p :: args' =>
                  match c_str p, format fmt'' args' with
                  | Some s, Some out => Some (s ++ out)
                  | _, _ => None
                  end
              | _ => None
              end
            else if Ascii.eqb d "d" then
              match args with
              | ArgD n :: args' =>
                  match format fmt'' args' with
                  | Some out => Some (dec n ++ out)
                  | None => None
                  end
              | _ => None
              end
            else None
        | "" => None
        end
      else
        match format fmt' args with
        | Some out => Some (String c out)
        | None => None
        end
  end.

(** [snprintf(buf, size, fmt, ...)]: the string left in [buf], which is the
    formatted text cut to [size - 1] characters. *)
Definition snprintf (size : Z) (fmt : string) (args : list arg)
  : option string :=
  match format fmt args with
  | Some out => Some (take (size - 1) out)
  | None => None
  end.

Fixpoint skip_space (s : string) : string :=
  match s with
  | "" => ""
  | String c rest => if isspace c then skip_space rest else s
  end.

(** The longest run of non-space characters at the head of [s], and what
    follows it. *)
Fixpoint token (s : string) : string * string :=
  match s with
  | "" => ("", "")
  | String c rest =>
      if isspace c then ("", s)
      else let (t, r) := token rest in (String c t, r)
  end.

Definition EOF : Z := -1.

(** What a scan returns once it stops with the strings [got] assigned:
    their number, or [EOF] when the input ran out before any conversion. *)
Definition scan_stop (input_failure : bool) (got : list string)
  : Z * list string :=
  match got with
  | [] => if input_failure then (EOF, got) else (0, got)
  | _ => (Z.of_nat (List.length got), got)
  end.

(** [sscanf] for formats made of white space, ordinary characters and
    [%s] without a width: the return value and the strings assigned to the
    successive pointer arguments. *)
Fixpoint scan (fmt : string) (input : string) (got : list string)
  : Z * list string :=
  match fmt with
  | "" => scan_stop false got
  | String c fmt' =>
      if Ascii.eqb c "%" then
        match fmt' with
        | String d fmt'' =>
            if Ascii.eqb d "s" then
              match skip_space input with
              | "" => scan_stop true got
              | String _ _ as input' =>
                  let (t, rest) := token input' in
                  scan fmt'' rest (got ++ [t])%list
              end
            else scan_stop false got
        | "" => scan_stop false got
        end
      else if isspace c then scan fmt' (skip_space input) got
      else
        match input with
        | "" => scan_stop true got
        | String d input' =>
            if Ascii.eqb d c then scan fmt' input' got
            else scan_stop false got
        end
  end.

Definition sscanf (input : string) (fmt : string) : Z * list string :=
  scan fmt input [].

(** A string that [%s] can have assigned: not empty, free of white space
    and of terminators. *)
Definition word (t : string) : Prop :=
  t <> "" /\ has_space t = false /\ has_nul t = false.

(** Ordinary characters of a format: neither a conversion nor white
    space. *)
Fixpoint ordinary (s : string) : bool :=
  match s with
  | "" => true
  | String c rest =>
      negb (Ascii.eqb c "%") && negb (isspace c) && ordinary rest
  end.

End Stdio.
Import Stdio.


(** ** Effects *)

(** [struct file_data] of file.h. *)
Record file_data := { size : Z; data : mem }.

(** What the process does that can be seen from outside it. *)
Inductive event :=
| EvCacheCreate (max_size hashsize : Z)
| EvListen (port : string) (rv : Z)
| EvAccept (listenfd rv : Z)
| EvRecv (fd len rv : Z)
| EvFileLoad (path : string) (found : bool)
| EvSend (fd : Z) (bytes : string) (rv : Z)
| EvStdout (text : string)
| EvStderr (text : string)
| EvPerror (msg : string)
| EvClose (fd : Z).

(** How a call ends: it returns, the process exits, the behaviour is
    undefined (a read or write outside an object), or the process is still
    waiting in a system call when the observation ends. *)
Inductive outcome (A : Type) :=
| Ret (a : A)
| Exit (status : Z)
| Fault
| Blocked.
Arguments Ret {A} a.
Arguments Exit {A} status.
Arguments Fault {A}.
Arguments Blocked {A}.

(** What surrounds the handling of one connection: the bytes the peer has
    sent ([None] when the receive fails), the bytes lying in the three
    local arrays of handle_http_request when it is entered, the text
    [asctime(localtime(&rawtime))] yields, and what [send] answers. *)
Record env := {
  incoming : option string;
  request0 : mem;
  type0 : mem;
  path0 : mem;
  now : mem;
  send_rv : string -> Z
}.

(** One answer of [accept]: the descriptor (-1 on failure), the peer
    address as [inet_ntop] prints it, and the surroundings of the
    connection. *)
Record accepted := {
  newfd : Z;
  peer : mem;
  around : env
}.

Definition SERVER_FILES : string := "./serverfiles".
Definition SERVER_ROOT : string := "./serverroot".
Definition PORT : string := "80".

Module Server.

Section Collaborators.

(** The collaborators of cache.h, file.h, mime.h and net.h. *)
Variable cache_t : Type.
Variable cache_create : Z -> Z -> cache_t.
Variable file_load : string -> option file_data.
Variable mime_type_get : string -> mem.
Variable get_listener_socket : string -> Z.

(** The cache objects allocated so far; a [struct cache *] is an index
    into them. *)
Definition heap := list cache_t.
Definition cache_ptr := nat.

(** A computation reads and writes the heap and appends to the trace. *)
Definition M (A : Type) : Type := heap -> outcome A * heap * list event.

Definition ret {A} (a : A) : M A := fun h => (Ret a, h, []).

Definition bind {A B} (m : M A) (f : A -> M B) : M B := fun h =>
  match m h with
  | (Ret a, h1, t1) => let '(r, h2, t2) := f a h1 in (r, h2, (t1 ++ t2)%list)
  | (Exit st, h1, t1) => (Exit st, h1, t1)
  | (Fault, h1, t1) => (Fault, h1, t1)
  | (Blocked, h1, t1) => (Blocked, h1, t1)
  end.

Notation "x <- m ;; k" := (bind m (fun x => k))
  (at level 61, m at next level, right associativity).
Notation "m ;; k" := (bind m (fun _ => k))
  (at level 61, right associativity).

Definition emit (e : event) : M unit := fun h => (Ret tt, h, [e]).
Definition exit {A} (status : Z) : M A := fun h => (Exit status, h, []).
Definition fault {A} : M A := fun h => (Fault, h, []).
Definition blocked {A} : M A := fun h => (Blocked, h, []).

(** The value of a defined operation; undefined behaviour otherwise. *)
Definition need {A} (o : option A) : M A :=
  match o with
  | Some a => ret a
  | None => fault
  end.

(** [printf], [fprintf(stderr, ...)] and [perror]. *)
Definition printf (fmt : string) (args : list arg) : M unit :=
  text <- need (format fmt args) ;; emit (EvStdout text).

Definition fprintf_stderr (fmt : string) (args : list arg) : M unit :=
  text <- need (format fmt args) ;; emit (EvStderr text).

Definition perror (msg : string) : M unit := emit (EvPerror msg).

(** The array [arr] of [cap] bytes after a scan that assigned [got]: the
    [i]-th string is stored in it when there is one. *)
Definition assigned (cap : Z) (arr : mem) (got : list string) (i : nat)
  : option mem :=
  match nth_error got i with
  | Some tok => store cap arr tok
  | None => Some arr
  end.

Definition assign (cap : Z) (arr : mem) (got : list string) (i : nat)
  : M mem :=
  need (assigned cap arr got i).

(** A call of [file_load], recorded in the trace. *)
Definition load (path : string) : M (option file_data) :=
  let r := file_load path in
  emit (EvFileLoad path (match r with Some _ => true | None => false end)) ;;
  ret r.

(** A call of [cache_create]: the new object is added to the heap and its
    address returned. *)
Definition make_cache (max_size hashsize : Z) : M cache_ptr := fun h =>
  (Ret (List.length h), (h ++ [cache_create max_size hashsize])%list,
   [EvCacheCreate max_size hashsize]).

(** A computation that leaves the heap as it finds it, ends the same way
    whatever the heap holds, and emits only events that satisfy [P]. *)
Definition confined {A} (P : event -> Prop) (m : M A) : Prop :=
  exists r t, Forall P t /\ forall h, m h = (r, h, t).

(** A computation that returns only after a [send] on [fd]. *)
Definition answers {A} (fd : Z) (m : M A) : Prop :=
  forall h a h' t, m h = (Ret a, h', t) ->
  exists bytes rv, In (EvSend fd bytes rv) t.

Section Connection.

Variable k : env.

(** [recv(fd, buf, len, 0)]: at most [len] of the incoming bytes are copied
    to the front of [buf]; the return value and the buffer afterwards. *)
Definition recv (fd : Z) (buf : mem) (len : Z) : M (Z * mem) :=
  match incoming k with
  | None => emit (EvRecv fd len (-1)) ;; ret (-1, buf)
  | Some bytes =>
      let got := take len bytes in
      emit (EvRecv fd len (strlen got)) ;; ret (strlen got, overwrite buf got)
  end.

(** [send(fd, buf, len, 0)]. *)
Definition send (fd : Z) (buf : string) (len : Z) : M Z :=
  let bytes := take len buf in
  let rv := send_rv k bytes in
  emit (EvSend fd bytes rv) ;; ret rv.

(** The format string of send_response (line 61). *)
Definition response_format : string :=
  Eval cbv in
    esc "%s\nDate: %sConnection: close\nContent-Length: %d\nContent-Type: %s\n\n%s".

(** Lines 52-74.  [response] is the string snprintf leaves in the local
    buffer; [strlen] stops at its terminator.  [content_length] is an int
    and is printed as it is given. *)
Definition send_response (fd : Z) (header content_type : mem) (body : mem)
    (content_length : Z) : M Z :=
  let max_response_size := 262144 in
  let date := now k in
  response <- need (snprintf max_response_size response_format
                      [ArgS header; ArgS date; ArgD content_length;
                       ArgS content_type; ArgS body]) ;;
  let response_length := strlen (until_nul response) in
  rv <- send fd response response_length ;;
  (if rv <? 0 then perror "send" else ret tt) ;;
  ret rv.

(** Lines 79-99.  The payload is released by [file_free] once the
    response is sent; there is no heap of payloads here, so the call leaves
    no mark. *)
Definition resp_404 (fd : Z) : M unit :=
  filepath <- need (snprintf 4096 "%s/404.html" [ArgS (lit SERVER_FILES)]) ;;
  filedata <- load filepath ;;
  match filedata with
  | None =>
      fprintf_stderr (esc "cannot find system 404 file\n") [] ;;
      exit 3
  | Some filedata =>
      let mime_type := mime_type_get filepath in
      send_response fd (lit "HTTP/1.1 404 NOT FOUND") mime_type
        (data filedata) (size filedata) ;;
      ret tt
  end.

(** Lines 104-124.  [cache] is received and not used. *)
Definition resp_file (fd : Z) (cache : cache_ptr) (request_path : mem)
  : M unit :=
  filepath <- need (snprintf 4096 "%s%s"
                      [ArgS (lit SERVER_ROOT); ArgS request_path]) ;;
  filedata <- load filepath ;;
  match filedata with
  | None =>
      fprintf_stderr (esc "cannot find system %s file\n")
        [ArgS request_path] ;;
      exit 3
  | Some filedata =>
      let mime_type := mime_type_get filepath in
      send_response fd (lit "HTTP/1.1 200 OK") mime_type
        (data filedata) (size filedata) ;;
      ret tt
  end.

(** Lines 134-145.  [prof] is an array of 100 zero bytes that receives the
    string after the prefix; only the return value of the scan is used. *)
Definition handle_get_request (fd : Z) (cache : cache_ptr)
    (path request : mem) : M unit :=
  printf "GET: %s" [ArgS path] ;;
  let prof := zeroed 100 in
  input <- need (c_str path) ;;
  let '(rv, got) := sscanf input "/profile/%s" in
  _ <- assign 100 prof got 0 ;;
  if rv =? 1 then resp_file fd cache (lit "/profile.html")
  else resp_file fd cache (lit "/index.html").

(** Lines 155-158. *)
Definition handle_post_request (fd : Z) (cache : cache_ptr)
    (path request : mem) : M unit :=
  printf "POST: %s" [ArgS request] ;;
  resp_404 fd.

(** Lines 175-191, the part of handle_http_request that follows a receive
    that did not fail: the two tokens are scanned out of the request buffer
    into the arrays [type] (10 bytes) and [path] (107 bytes), whatever
    bytes these held before, and the method selects the handler.  The
    return value of the scan is not looked at. *)
Definition dispatch (fd : Z) (cache : cache_ptr) (request : mem) : M unit :=
  let type := type0 k in
  let path := path0 k in
  input <- need (c_str request) ;;
  let '(_, got) := sscanf input "%s %s" in
  type <- assign 10 type got 0 ;;
  path <- assign 107 path got 1 ;;
  is_get <- need (strcmp type (lit "GET")) ;;
  if is_get =? 0 then handle_get_request fd cache path request
  else
    is_post <- need (strcmp type (lit "POST")) ;;
    if is_post =? 0 then handle_post_request fd cache path request
    else resp_404 fd.

(** Lines 163-192.  The receive writes into an array that is not
    initialised and nothing is appended to what it wrote. *)
Definition handle_http_request (fd : Z) (cache : cache_ptr) : M unit :=
  let request_buffer_size := 65536 in
  let request := request0 k in
  r <- recv fd request (request_buffer_size - 1) ;;
  let '(bytes_recvd, request) := r in
  if bytes_recvd <? 0 then perror "recv"
  else dispatch fd cache request.

End Connection.

(** Lines 218-241: the [while(1)] loop of main, run against the successive
    answers of [accept]; the process is left waiting in [accept] when they
    are used up.  [continue] goes to the next answer. *)
Fixpoint main_loop (listenfd : Z) (cache : cache_ptr)
    (script : list accepted) : M unit :=
  match script with
  | [] => blocked
  | a :: script' =>
      emit (EvAccept listenfd (newfd a)) ;;
      (if newfd a =? -1 then perror "accept"
       else
         printf (esc "server: got connection from %s\n") [ArgS (peer a)] ;;
         handle_http_request (around a) (newfd a) cache ;;
         emit (EvClose (newfd a))) ;;
      main_loop listenfd cache script'
  end.

(** Lines 197-246.  The loop does not return, so that [return 0] is never
    reached. *)
Definition main (script : list accepted) : M Z :=
  cache <- make_cache 10 0 ;;
  let listenfd := get_listener_socket PORT in
  emit (EvListen PORT listenfd) ;;
  if listenfd <? 0 then
    fprintf_stderr
      (esc "webserver: fatal error getting listening socket\n") [] ;;
    exit 1
  else
    printf (esc "webserver: waiting for connections on port %s...\n")
      [ArgS (lit PORT)] ;;
    main_loop listenfd cache script ;;
    ret 0.

End Collaborators.

Arguments ret {cache_t A} a _.
Arguments exit {cache_t A} status _.
Arguments fault {cache_t A} _.
Arguments blocked {cache_t A} _.
Arguments load {cache_t} file_load path _.
Arguments assign {cache_t} cap arr got i _.
Arguments fprintf_stderr {cache_t} fmt args _.
Arguments make_cache {cache_t} cache_create max_size hashsize _.
Arguments recv {cache_t} k fd buf len _.
Arguments send {cache_t} k fd buf len _.
Arguments confined {cache_t A} P m.
Arguments answers {cache_t A} fd m.
Arguments bind {cache_t A B} m f _.
Arguments emit {cache_t} e _.
Arguments need {cache_t A} o _.
Arguments perror {cache_t} msg _.
Arguments printf {cache_t} fmt args _.
Arguments send_response {cache_t} k fd header content_type body content_length _.
Arguments resp_404 {cache_t} file_load mime_type_get k fd _.
Arguments resp_file {cache_t} file_load mime_type_get k fd cache request_path _.
Arguments handle_get_request {cache_t} file_load mime_type_get k fd cache path request _.
Arguments handle_post_request {cache_t} file_load mime_type_get k fd cache path request _.
Arguments dispatch {cache_t} file_load mime_type_get k fd cache request _.
Arguments handle_http_request {cache_t} file_load mime_type_get k fd cache _.
Arguments main_loop {cache_t} file_load mime_type_get listenfd cache script _.
Arguments main {cache_t} cache_create file_load mime_type_get get_listener_socket script _.

End Server.
Import Server.

(** ** A sample deployment, for concrete runs *)

Module Sample.

Definition index_html : file_data :=
  {| size := 13; data := lit "<h1>home</h1>" |}.
Definition profile_html : file_data :=
  {| size := 16; data := lit "<h1>profile</h1>" |}.
Definition e404_html : file_data :=
  {| size := 18; data := lit "<h1>not found</h1>" |}.

Definition files (path : string) : option file_data :=
  if String.eqb path "./serverroot/index.html" then Some index_html
  else if String.eqb path "./serverroot/profile.html" then Some profile_html
  else if String.eqb path "./serverfiles/404.html" then Some e404_html
  else None.

Definition no_files (path : string) : option file_data := None.

Definition mime (path : string) : mem := lit "text/html".

Definition date : mem :=
  Eval cbv in lit (esc "Thu Jan  1 00:00:00 1970\n").

(** A connection on which [bytes] arrive, entered with zeroed arrays, and
    on which [send] sends everything. *)
Definition talking (bytes : string) : env :=
  {| incoming := Some bytes;
     request0 := zeroed 65536;
     type0 := zeroed 10;
     path0 := zeroed 107;
     now := date;
     send_rv := strlen |}.

(** A connection on which the receive fails. *)
Definition broken : env :=
  {| incoming := None;
     request0 := zeroed 65536;
     type0 := zeroed 10;
     path0 := zeroed 107;
     now := date;
     send_rv := strlen |}.


Definition get_profile : string :=
  Eval cbv in esc "GET /profile/alice HTTP/1.1\r\n\r\n".
Definition get_home : string :=
  Eval cbv in esc "GET / HTTP/1.1\r\n\r\n".
Definition post_save : string :=
  Eval cbv in esc "POST /save HTTP/1.1\r\n\r\nHello".

(** A request whose method has ten characters. *)
Definition long_method : string :=
  Eval cbv in esc "AAAAAAAAAA / HTTP/1.1\r\n\r\n".

(** A file of three bytes, the second of which is NUL. *)
Definition binary_body : mem := Eval cbv in esc "a\0b".

(** A connection on which nothing arrives before the peer shuts down,
    entered with the bytes [stale] lying at the start of the request
    array and zeroes anywhere else. *)
Definition silent_over (stale : string) : env :=
  {| incoming := Some "";
     request0 := overwrite (zeroed 65536) stale;
     type0 := zeroed 10;
     path0 := zeroed 107;
     now := date;
     send_rv := strlen |}.

Definition failed_accept : accepted :=
  {| newfd := -1; peer := lit ""; around := broken |}.

Definition visit (fd : Z) (bytes : string) : accepted :=
  {| newfd := fd; peer := lit "10.0.0.1"; around := talking bytes |}.

End Sample.


(** ** The response layout in the words of the specification *)

Module Spec.

Definition LF : string := String "010" "".

(** [<status_line>\nDate: <date>Connection: close\nContent-Length: <n>\n
    Content-Type: <type>\n\n<body>], the lines ended by a bare line feed. *)
Definition layout (status_line date : string) (n : Z) (type body : string)
  : string :=
  status_line ++ LF ++
  "Date: " ++ date ++
  "Connection: close" ++ LF ++
  "Content-Length: " ++ dec n ++ LF ++
  "Content-Type: " ++ type ++ LF ++
  LF ++
  body.

(** The header block of [layout], up to and including the blank line. *)
Definition head (status_line date : string) (n : Z) (type : string)
  : string :=
  layout status_line date n type "".

(** The events of one [send] of [bytes] by send_response: the call, and
    the report of its failure when it fails. *)
Definition sent (k : env) (fd : Z) (bytes : string) : list event :=
  EvSend fd bytes (send_rv k bytes)
  :: (if send_rv k bytes <? 0 then [EvPerror "send"] else []).

(** The events a request handler may cause once the request is read. *)
Definition handler_event (e : event) : Prop :=
  match e with
  | EvFileLoad _ _ | EvSend _ _ _ | EvStdout _ | EvStderr _ => True
  | EvPerror msg => msg = "send"
  | _ => False
  end.

Definition is_recv (e : event) : bool :=
  match e with
  | EvRecv _ _ _ => true
  | _ => false
  end.

Definition is_cache_create (e : event) : bool :=
  match e with
  | EvCacheCreate _ _ => true
  | _ => false
  end.

End Spec.
Import Spec.

(** ** The shape of a run *)

Module Shape.

(** The status line and the file of each of the three answers the server
    can give. *)
Definition routes : list (string * string) :=
  [("HTTP/1.1 200 OK", "./serverroot/profile.html");
   ("HTTP/1.1 200 OK", "./serverroot/index.html");
   ("HTTP/1.1 404 NOT FOUND", "./serverfiles/404.html")].

Definition is_stdout (e : event) : bool :=
  match e with
  | EvStdout _ => true
  | _ => false
  end.

Definition is_send (e : event) : bool :=
  match e with
  | EvSend _ _ _ => true
  | _ => false
  end.

Definition is_load (e : event) : bool :=
  match e with
  | EvFileLoad _ _ => true
  | _ => false
  end.

Definition count (f : event -> bool) (t : list event) : nat :=
  List.length (filter f t).

(** How resp_404 and resp_file can end, for the status line [status] and
    the file [path]: the file is missing and the process exits; the file is
    there but one of the strings to format is not terminated; or the
    response is sent. *)
Definition responded (k : env) (fd : Z) (status path : string)
    (r : outcome unit) (t : list event) : Prop :=
  (r = Exit 3 /\ exists msg, t = [EvFileLoad path false; EvStderr msg])
  \/ (r = Fault /\ t = [EvFileLoad path true])
  \/ (r = Ret tt /\
      exists d n mt b,
        has_nul d = false /\ has_nul mt = false /\ has_nul b = false /\
        t = EvFileLoad path true
            :: sent k fd (take 262143 (layout status d n mt b))).

(** How the routing of a request can end: undefined behaviour before any
    file is asked for, with nothing but lines on the standard output so
    far; or one of the three answers, after such lines. *)
Definition routed (k : env) (fd : Z) (r : outcome unit) (t : list event)
  : Prop :=
  (r = Fault /\ Forall (fun e => is_stdout e = true) t)
  \/ exists logs status path t',
       t = (logs ++ t')%list
       /\ Forall (fun e => is_stdout e = true) logs
       /\ In (status, path) routes
       /\ responded k fd status path r t'.

(** What every run of a handler satisfies, for the outcome [r] and the
    trace [t]: counts of loads and sends, the files and the bytes, what an
    exit means. *)
Definition well_behaved (fd : Z) (r : outcome unit) (t : list event)
  : Prop :=
  (count is_send t <= count is_load t <= 1)%nat
  /\ Forall (fun e => match e with
                      | EvFileLoad path _ => In path (map snd routes)
                      | EvSend fd' bytes _ =>
                          fd' = fd /\ strlen bytes <= 262143
                          /\ has_nul bytes = false
                      | _ => True
                      end) t
  /\ (forall fd' bytes rv, In (EvSend fd' bytes rv) t ->
       exists status path,
         In (status, path) routes /\ In (EvFileLoad path true) t
         /\ String.prefix (status ++ LF) bytes = true)
  /\ (forall st, r = Exit st -> st = 3 /\ count is_send t = 0%nat)
  /\ ((exists st, r = Exit st) <-> exists p, In (EvFileLoad p false) t).

(** A load is of one of the three files. *)
Definition fixed_file (e : event) : Prop :=
  match e with
  | EvFileLoad path _ => In path (map snd routes)
  | _ => True
  end.

(** A send is on [fd], of at most 262143 bytes, none of them NUL. *)
Definition bounded_send (fd : Z) (e : event) : Prop :=
  match e with
  | EvSend fd' bytes _ =>
      fd' = fd /\ strlen bytes <= 262143 /\ has_nul bytes = false
  | _ => True
  end.

(** [k] with other incoming bytes. *)
Definition with_incoming (k : env) (bytes : option string) : env :=
  {| incoming := bytes;
     request0 := request0 k;
     type0 := type0 k;
     path0 := path0 k;
     now := now k;
     send_rv := send_rv k |}.

End Shape.
Import Shape.

(** ** More sample surroundings *)

Module Cases.

Fixpoint fill (n : nat) (c : ascii) : string :=
  match n with
  | O => ""
  | S n' => String c (fill n' c)
  end.

(** 65535 bytes that begin with a request line, then [last]. *)
Definition oversized (last : string) : string :=
  Sample.get_home ++ fill (Z.to_nat 65517) "x" ++ last.

(** A connection on which two spaces arrive, entered with the string
    [GET] left in [type] by an earlier call. *)
Definition stale_get : env :=
  {| incoming := Some "  ";
     request0 := zeroed 65536;
     type0 := lit "GET" ++ zeroed 6;
     path0 := zeroed 107;
     now := Sample.date;
     send_rv := strlen |}.

Definition get_home_with_headers : string :=
  Eval cbv in esc "GET / HTTP/1.0\r\nHost: example.org\r\n\r\nbody".

Definition new_cache (max_size hashsize : Z) : Z * Z := (max_size, hashsize).

Definition no_listener (port : string) : Z := -1.

End Cases.

(** ** Facts about C strings *)

Module CStringFacts.

Lemma strlen_nonneg s : 0 <= strlen s.
Proof. unfold strlen. lia. Qed.

Lemma strlen_cons c s : strlen (String c s) = strlen s + 1.
Proof. unfold strlen. cbn [String.length]. lia. Qed.

Lemma strlen_app a b : strlen (a ++ b) = strlen a + strlen b.
Proof.
  induction a as [|c a IH]; cbn [append].
  - unfold strlen at 2. cbn. lia.
  - rewrite !strlen_cons, IH. lia.
Qed.

Lemma append_assoc (a b c : string) : (a ++ b) ++ c = a ++ (b ++ c).
Proof. induction a as [|x a IH]; cbn; [reflexivity | now rewrite IH]. Qed.

Lemma append_nil_r (a : string) : a ++ "" = a.
Proof. induction a as [|x a IH]; cbn; [reflexivity | now rewrite IH]. Qed.

Lemma take_all n s : strlen s <= n -> take n s = s.
Proof.
  revert n. induction s as [|c s IH]; intros n Hn; cbn [take].
  - reflexivity.
  - rewrite strlen_cons in Hn. pose proof (strlen_nonneg s).
    destruct (Z.leb_spec n 0); [lia|]. rewrite IH by lia. reflexivity.
Qed.

Lemma take_app n a b :
  strlen a <= n -> take n (a ++ b) = a ++ take (n - strlen a) b.
Proof.
  revert n. induction a as [|c a IH]; intros n Hn; cbn [append].
  - change (strlen "") with 0. now rewrite Z.sub_0_r.
  - rewrite strlen_cons in *. pose proof (strlen_nonneg a). cbn [take].
    destruct (Z.leb_spec n 0); [lia|]. rewrite IH by lia.
    now replace (n - 1 - strlen a) with (n - (strlen a + 1)) by lia.
Qed.

Lemma strlen_take n s : strlen (take n s) <= Z.max 0 n.
Proof.
  revert n. induction s as [|c s IH]; intros n; cbn [take].
  - unfold strlen. cbn. lia.
  - destruct (Z.leb_spec n 0).
    + unfold strlen. cbn. lia.
    + rewrite strlen_cons. specialize (IH (n - 1)). lia.
Qed.

Lemma has_nul_app a b : has_nul (a ++ b) = has_nul a || has_nul b.
Proof.
  induction a as [|c a IH]; cbn; [reflexivity|].
  destruct (Ascii.eqb c NUL); [reflexivity | exact IH].
Qed.

Lemma until_nul_clean m : has_nul (until_nul m) = false.
Proof.
  induction m as [|c m IH]; cbn; [reflexivity|].
  destruct (Ascii.eqb c NUL) eqn:E; cbn; [reflexivity|]. now rewrite E.
Qed.

Lemma until_nul_id s : has_nul s = false -> until_nul s = s.
Proof.
  induction s as [|c s IH]; cbn; [reflexivity|].
  destruct (Ascii.eqb c NUL); [discriminate|]. intros H. now rewrite IH.
Qed.

Lemma until_nul_app a b :
  has_nul a = false -> until_nul (a ++ b) = a ++ until_nul b.
Proof.
  induction a as [|c a IH]; cbn; [reflexivity|].
  destruct (Ascii.eqb c NUL); [discriminate|]. intros H. now rewrite IH.
Qed.

Lemma c_str_clean m s : c_str m = Some s -> has_nul s = false.
Proof.
  unfold c_str. destruct (has_nul m); [|discriminate].
  intros [= <-]. apply until_nul_clean.
Qed.

(** A string followed by its terminator reads back, whatever comes next. *)
Lemma c_str_lit_app s rest :
  has_nul s = false -> c_str (lit s ++ rest) = Some s.
Proof.
  intros H. unfold c_str, lit. rewrite append_assoc.
  rewrite has_nul_app, until_nul_app by assumption.
  rewrite H. cbn. now rewrite append_nil_r.
Qed.

Lemma c_str_lit s : has_nul s = false -> c_str (lit s) = Some s.
Proof.
  intros H. rewrite <- (append_nil_r (lit s)). now apply c_str_lit_app.
Qed.

Lemma c_str_store cap dst tok m :
  has_nul tok = false -> store cap dst tok = Some m -> c_str m = Some tok.
Proof.
  unfold store, overwrite. intros H.
  destruct (strlen tok + 1 <=? cap); [|discriminate].
  intros [= <-]. now apply c_str_lit_app.
Qed.

Lemma store_fits cap dst tok :
  strlen tok + 1 <= cap -> store cap dst tok = Some (overwrite dst (lit tok)).
Proof.
  intros H. unfold store. destruct (Z.leb_spec (strlen tok + 1) cap); [reflexivity|lia].
Qed.

Lemma store_overflow cap dst tok :
  cap < strlen tok + 1 -> store cap dst tok = None.
Proof.
  intros H. unfold store. destruct (Z.leb_spec (strlen tok + 1) cap); [lia|reflexivity].
Qed.

Lemma code_zero c : code c = 0 -> c = NUL.
Proof.
  unfold code. intros H.
  assert (N_of_ascii c = 0%N) as H0 by lia.
  rewrite <- (ascii_N_embedding c), H0. reflexivity.
Qed.

Lemma code_inj c d : code c - code d = 0 -> c = d.
Proof.
  unfold code. intros H.
  assert (N_of_ascii c = N_of_ascii d) as H0 by lia.
  rewrite <- (ascii_N_embedding c), H0. apply ascii_N_embedding.
Qed.

(** On C strings [strcmp] is zero exactly on equal strings. *)
Lemma compare_chars_zero a b :
  has_nul a = false -> has_nul b = false ->
  compare_chars a b = 0 <-> a = b.
Proof.
  revert b. induction a as [|c a IH]; intros [|d b]; cbn.
  - tauto.
  - destruct (Ascii.eqb_spec d NUL); [discriminate|]. intros _ _. split.
    + intros H. exfalso. apply n, code_zero. lia.
    + discriminate.
  - destruct (Ascii.eqb_spec c NUL); [discriminate|]. intros _ _. split.
    + intros H. exfalso. now apply n, code_zero.
    + discriminate.
  - destruct (Ascii.eqb_spec c NUL); [discriminate|].
    destruct (Ascii.eqb_spec d NUL); [discriminate|]. intros Ha Hb.
    destruct (Ascii.eqb_spec c d) as [->|Hcd].
    + rewrite (IH b Ha Hb). split; [now intros ->|now intros [= ->]].
    + split; [intros H; exfalso; now apply Hcd, code_inj | now intros [= -> ->]].
Qed.

End CStringFacts.
Import CStringFacts.

(** ** Facts about formatting and scanning *)

Module StdioFacts.

Lemma digits_clean d : has_nul (NilEmpty.string_of_uint d) = false.
Proof. induction d; cbn; auto. Qed.

Lemma dec_clean n : has_nul (dec n) = false.
Proof.
  unfold dec, NilZero.string_of_int, NilZero.string_of_uint.
  destruct (Z.to_int n) as [d|d]; destruct d; cbn; auto using digits_clean.
Qed.

Lemma has_nul_take n s : has_nul s = false -> has_nul (take n s) = false.
Proof.
  revert n. induction s as [|c s IH]; intros n; cbn; [reflexivity|].
  destruct (Ascii.eqb c NUL) eqn:E; [discriminate|]. intros H.
  destruct (n <=? 0); cbn; [reflexivity|]. rewrite E. now apply IH.
Qed.

Lemma layout_clean hs d n t b :
  has_nul hs = false -> has_nul d = false -> has_nul t = false ->
  has_nul b = false -> has_nul (layout hs d n t b) = false.
Proof.
  intros Hh Hd Ht Hb. unfold layout, LF.
  repeat (rewrite has_nul_app; cbn [has_nul Ascii.eqb Bool.eqb NUL]).
  rewrite Hh, Hd, Ht, Hb, dec_clean. reflexivity.
Qed.

Lemma layout_head hs d n t b : layout hs d n t b = head hs d n t ++ b.
Proof.
  unfold head, layout. repeat rewrite append_assoc. reflexivity.
Qed.

(** The format string of send_response produces the layout of the
    specification. *)
Lemma format_response header date n content_type body hs d t b :
  c_str header = Some hs -> c_str date = Some d ->
  c_str content_type = Some t -> c_str body = Some b ->
  format response_format
    [ArgS header; ArgS date; ArgD n; ArgS content_type; ArgS body]
  = Some (layout hs d n t b).
Proof.
  intros Hh Hd Ht Hb. unfold response_format. cbn [format Ascii.eqb Bool.eqb].
  rewrite Hh, Hd, Ht, Hb. unfold layout, LF. cbn [append].
  repeat (rewrite ?append_assoc; cbn [append]). rewrite append_nil_r.
  reflexivity.
Qed.

Lemma has_space_app a b : has_space (a ++ b) = has_space a || has_space b.
Proof.
  induction a as [|c a IH]; cbn; [reflexivity|].
  now rewrite IH, orb_assoc.
Qed.

Lemma skip_space_solid s : has_space s = false -> skip_space s = s.
Proof.
  destruct s as [|c s]; cbn; [reflexivity|].
  destruct (isspace c); [discriminate | reflexivity].
Qed.

Lemma skip_space_clean s : has_nul s = false -> has_nul (skip_space s) = false.
Proof.
  induction s as [|c s IH]; cbn; [reflexivity|].
  destruct (Ascii.eqb c NUL) eqn:E; [discriminate|]. intros H.
  destruct (isspace c); [now apply IH|]. cbn. now rewrite E.
Qed.

Lemma token_solid p : has_space p = false -> token p = (p, "").
Proof.
  induction p as [|c p IH]; cbn; [reflexivity|].
  destruct (isspace c); [discriminate|]. cbn. intros H. now rewrite IH.
Qed.

Lemma token_split s : s = fst (token s) ++ snd (token s).
Proof.
  induction s as [|c s IH]; cbn; [reflexivity|].
  destruct (isspace c); [reflexivity|].
  destruct (token s) as [t r]. cbn in *. now rewrite IH.
Qed.

Lemma token_is_solid s : has_space (fst (token s)) = false.
Proof.
  induction s as [|c s IH]; cbn; [reflexivity|].
  destruct (isspace c) eqn:E; [reflexivity|].
  destruct (token s) as [t r]. cbn in *. now rewrite E.
Qed.

Lemma token_clean s :
  has_nul s = false ->
  has_nul (fst (token s)) = false /\ has_nul (snd (token s)) = false.
Proof.
  intros H. rewrite (token_split s), has_nul_app in H.
  now apply orb_false_elim in H.
Qed.

Lemma token_nonempty c s : isspace c = false -> fst (token (String c s)) <> "".
Proof.
  intros H. cbn. rewrite H. destruct (token s). discriminate.
Qed.

Lemma scan_stop_snd b got : snd (scan_stop b got) = got.
Proof. destruct got, b; reflexivity. Qed.

Lemma scan_words_bounded n :
  forall fmt input got,
    (String.length fmt <= n)%nat -> has_nul input = false ->
    Forall word got -> Forall word (snd (scan fmt input got)).
Proof.
  induction n as [|n IH]; intros fmt input got Hlen Hin Hgot.
  - destruct fmt; [|cbn in Hlen; lia]. cbn. now rewrite scan_stop_snd.
  - destruct fmt as [|c fmt]; cbn [scan]; [now rewrite scan_stop_snd|].
    cbn in Hlen. destruct (Ascii.eqb c "%").
    + destruct fmt as [|d fmt]; [now rewrite scan_stop_snd|].
      destruct (Ascii.eqb d "s"); [|now rewrite scan_stop_snd].
      pose proof (skip_space_clean input Hin) as Hs.
      destruct (skip_space input) as [|x rest] eqn:E;
        [now rewrite scan_stop_snd|].
      assert (isspace x = false) as Hx.
      { clear - E. induction input as [|y input IHi]; cbn in E; [discriminate|].
        destruct (isspace y) eqn:Ey; [auto|]. now injection E as -> _. }
      pose proof (token_nonempty x rest Hx) as Hne.
      pose proof (token_is_solid (String x rest)) as Hsolid.
      destruct (token_clean (String x rest) Hs) as [Ht Hr].
      destruct (token (String x rest)) as [t r]. cbn [fst snd] in *.
      apply IH; [cbn in Hlen; lia | assumption |].
      apply Forall_app. split; [assumption|].
      constructor; [|constructor]. repeat split; assumption.
    + destruct (isspace c).
      * apply IH; [lia | now apply skip_space_clean | assumption].
      * destruct input as [|d input]; [now rewrite scan_stop_snd|].
        destruct (Ascii.eqb d c); [|now rewrite scan_stop_snd].
        apply IH; [lia | | assumption].
        cbn in Hin. destruct (Ascii.eqb d NUL); [discriminate | assumption].
Qed.

(** Whatever [sscanf] assigns from a C string is a [word]. *)
Lemma sscanf_words input fmt :
  has_nul input = false -> Forall word (snd (sscanf input fmt)).
Proof.
  intros H. unfold sscanf.
  now apply (scan_words_bounded (String.length fmt)); [lia | | constructor].
Qed.

Lemma scan_ordinary_match pre fmt rest got :
  ordinary pre = true -> scan (pre ++ fmt) (pre ++ rest) got = scan fmt rest got.
Proof.
  induction pre as [|c pre IH]; cbn [append ordinary]; [reflexivity|].
  intros H. apply andb_prop in H as [H Hpre]. apply andb_prop in H as [Hc Hs].
  cbn [scan]. apply negb_true_iff in Hc, Hs. rewrite Hc, Hs, Ascii.eqb_refl.
  now apply IH.
Qed.

Lemma scan_ordinary_mismatch pre fmt got :
  ordinary pre = true ->
  forall input, (forall rest, input <> pre ++ rest) ->
  exists b, scan (pre ++ fmt) input got = scan_stop b got.
Proof.
  induction pre as [|c pre IH]; cbn [append ordinary]; intros H input Hno.
  - now destruct (Hno input).
  - apply andb_prop in H as [H Hpre]. apply andb_prop in H as [Hc Hs].
    cbn [scan]. apply negb_true_iff in Hc, Hs. rewrite Hc, Hs.
    destruct input as [|d input]; [now exists true|].
    destruct (Ascii.eqb_spec d c) as [->|Hd]; [|now exists false].
    apply IH; [assumption|]. intros rest ->. now apply (Hno rest).
Qed.

Lemma prefix_cases pre p :
  (exists rest, p = pre ++ rest) \/ (forall rest, p <> pre ++ rest).
Proof.
  revert p. induction pre as [|c pre IH]; intros p; cbn [append].
  - left. now exists p.
  - destruct p as [|d p]; [right; discriminate|].
    destruct (Ascii.eqb_spec d c) as [->|Hd].
    + destruct (IH p) as [[rest ->]|Hno]; [left; now exists rest|].
      right. intros rest [= ->]. now apply (Hno rest).
    + right. intros rest [= -> _]. now apply Hd.
Qed.

Lemma scan_word tok : tok <> "" -> has_space tok = false ->
  scan "%s" tok [] = (1, [tok]).
Proof.
  intros Hne Hs. cbn [scan Ascii.eqb Bool.eqb].
  rewrite (skip_space_solid tok Hs).
  destruct tok as [|c tok]; [contradiction|].
  now rewrite (token_solid _ Hs).
Qed.

(** The scan of handle_get_request on a path without white space: one
    assignment exactly when something follows the prefix [/profile/]. *)
Lemma sscanf_profile p :
  has_space p = false ->
  (forall tok, tok <> "" -> p = "/profile/" ++ tok ->
     sscanf p "/profile/%s" = (1, [tok])) /\
  ((forall tok, tok <> "" -> p <> "/profile/" ++ tok) ->
     exists rv, rv <> 1 /\ sscanf p "/profile/%s" = (rv, [])).
Proof.
  intros Hs. unfold sscanf. split.
  - intros tok Hne ->. rewrite has_space_app in Hs.
    apply orb_false_elim in Hs as [_ Hs].
    change "/profile/%s" with ("/profile/" ++ "%s").
    rewrite scan_ordinary_match by reflexivity. now apply scan_word.
  - intros Hno. change "/profile/%s" with ("/profile/" ++ "%s").
    destruct (prefix_cases "/profile/" p) as [[rest ->]|Hp].
    + destruct rest as [|c rest].
      * exists EOF. split; [discriminate | reflexivity].
      * now destruct (Hno (String c rest)).
    + destruct (scan_ordinary_mismatch "/profile/" "%s" [] eq_refl p Hp)
        as [b Hb].
      rewrite Hb. destruct b; [exists EOF | exists 0]; split;
        (discriminate || reflexivity).
Qed.

Lemma token_stops t c rest :
  has_space t = false -> isspace c = true ->
  token (t ++ String c rest) = (t, String c rest).
Proof.
  intros Ht Hc. induction t as [|x t IH]; cbn [append token].
  - now rewrite Hc.
  - cbn in Ht. apply orb_false_elim in Ht as [Hx Ht].
    now rewrite Hx, (IH Ht).
Qed.

Lemma skip_space_word t rest :
  t <> "" -> has_space t = false -> skip_space (t ++ rest) = t ++ rest.
Proof.
  destruct t as [|x t]; [contradiction|]. cbn. intros _ H.
  apply orb_false_elim in H as [-> _]. reflexivity.
Qed.

(** A request line [<method> <path><space>...] scans to its method and its
    path, whole, whatever their lengths. *)
Lemma sscanf_request_line m p c rest :
  m <> "" -> has_space m = false -> p <> "" -> has_space p = false ->
  isspace c = true ->
  sscanf (m ++ " " ++ p ++ String c rest) "%s %s" = (2, [m; p]).
Proof.
  intros Hm Hms Hp Hps Hc. unfold sscanf. cbn [scan Ascii.eqb Bool.eqb].
  rewrite (skip_space_word m _ Hm Hms).
  destruct (m ++ " " ++ p ++ String c rest) as [|x s] eqn:E.
  { destruct m; [contradiction | discriminate]. }
  rewrite <- E. cbn [append]. rewrite (token_stops m " " _ Hms eq_refl).
  change (isspace " ") with true. cbn [app skip_space].
  change (isspace " ") with true. cbn iota.
  rewrite !(skip_space_word p _ Hp Hps).
  destruct (p ++ String c rest) as [|y s'] eqn:E'.
  { destruct p; [contradiction | discriminate]. }
  rewrite <- E'. now rewrite (token_stops p c rest Hps Hc).
Qed.

End StdioFacts.
Import StdioFacts.

(** ** Facts about the server *)

Section ServerFacts.

Context {cache_t : Type}.
Variable cache_create : Z -> Z -> cache_t.
Variable file_load : string -> option file_data.
Variable mime_type_get : string -> mem.
Variable get_listener_socket : string -> Z.

Set Default Proof Using "Type".

Local Abbreviation M := (Server.M cache_t).
Local Abbreviation resp_404 := (Server.resp_404 (cache_t := cache_t) file_load mime_type_get).
Local Abbreviation resp_file := (Server.resp_file (cache_t := cache_t) file_load mime_type_get).
Local Abbreviation handle_get_request :=
  (Server.handle_get_request (cache_t := cache_t) file_load mime_type_get).
Local Abbreviation handle_post_request :=
  (Server.handle_post_request (cache_t := cache_t) file_load mime_type_get).
Local Abbreviation dispatch := (Server.dispatch (cache_t := cache_t) file_load mime_type_get).
Local Abbreviation handle_http_request :=
  (Server.handle_http_request (cache_t := cache_t) file_load mime_type_get).
Local Abbreviation main_loop := (Server.main_loop (cache_t := cache_t) file_load mime_type_get).
Local Abbreviation main :=
  (Server.main (cache_t := cache_t) cache_create file_load mime_type_get get_listener_socket).

(** Unfolds the monad of a goal down to outcomes, heaps and traces. *)
Ltac run :=
  cbv [bind need ret send emit perror exit fault blocked printf
       fprintf_stderr load assign];
  cbn [app].

(** *** Running a response *)

Lemma send_response_run k fd header content_type body n (h : heap cache_t)
    hs d t b :
  c_str header = Some hs -> c_str (now k) = Some d ->
  c_str content_type = Some t -> c_str body = Some b ->
  send_response k fd header content_type body n h =
    (Ret (send_rv k (take 262143 (layout hs d n t b))), h,
     sent k fd (take 262143 (layout hs d n t b))).
Proof.
  intros Hh Hd Ht Hb. unfold send_response, snprintf.
  rewrite (format_response _ _ _ _ _ hs d t b) by assumption.
  set (text := layout hs d n t b).
  assert (has_nul (take (262144 - 1) text) = false) as Hclean.
  { apply has_nul_take, layout_clean; eauto using c_str_clean. }
  change (262144 - 1) with 262143 in *.
  run. rewrite (until_nul_id _ Hclean), take_all by lia.
  unfold sent. destruct (send_rv k (take 262143 text) <? 0); reflexivity.
Qed.

Lemma path_404 :
  snprintf 4096 "%s/404.html" [ArgS (lit SERVER_FILES)]
  = Some "./serverfiles/404.html".
Proof. reflexivity. Qed.

Lemma path_under_root request_path rp :
  c_str request_path = Some rp ->
  snprintf 4096 "%s%s" [ArgS (lit SERVER_ROOT); ArgS request_path]
  = Some (take 4095 (SERVER_ROOT ++ rp)).
Proof.
  intros H. unfold snprintf. cbn [format Ascii.eqb Bool.eqb].
  change (c_str (lit SERVER_ROOT)) with (Some SERVER_ROOT).
  rewrite H, append_nil_r. reflexivity.
Qed.

Lemma resp_404_run k fd (h : heap cache_t) f b mt d :
  file_load "./serverfiles/404.html" = Some f ->
  c_str (data f) = Some b ->
  c_str (mime_type_get "./serverfiles/404.html") = Some mt ->
  c_str (now k) = Some d ->
  resp_404 k fd h =
    (Ret tt, h,
     EvFileLoad "./serverfiles/404.html" true
     :: sent k fd (take 262143
                     (layout "HTTP/1.1 404 NOT FOUND" d (size f) mt b))).
Proof.
  intros Hf Hb Hm Hd. unfold resp_404. rewrite path_404. run. rewrite Hf.
  rewrite (send_response_run k fd _ _ _ _ h "HTTP/1.1 404 NOT FOUND" d mt b)
    by (assumption || reflexivity).
  now rewrite app_nil_r.
Qed.

Lemma resp_404_missing k fd (h : heap cache_t) :
  file_load "./serverfiles/404.html" = None ->
  resp_404 k fd h =
    (Exit 3, h,
     [EvFileLoad "./serverfiles/404.html" false;
      EvStderr ("cannot find system 404 file" ++ LF)]).
Proof.
  intros Hf. unfold resp_404. rewrite path_404. run. now rewrite Hf.
Qed.

Lemma resp_file_run k fd cache request_path (h : heap cache_t) rp f b mt d :
  c_str request_path = Some rp ->
  file_load (take 4095 (SERVER_ROOT ++ rp)) = Some f ->
  c_str (data f) = Some b ->
  c_str (mime_type_get (take 4095 (SERVER_ROOT ++ rp))) = Some mt ->
  c_str (now k) = Some d ->
  resp_file k fd cache request_path h =
    (Ret tt, h,
     EvFileLoad (take 4095 (SERVER_ROOT ++ rp)) true
     :: sent k fd (take 262143 (layout "HTTP/1.1 200 OK" d (size f) mt b))).
Proof.
  intros Hp Hf Hb Hm Hd. unfold resp_file.
  rewrite (path_under_root _ rp Hp). run. rewrite Hf.
  rewrite (send_response_run k fd _ _ _ _ h "HTTP/1.1 200 OK" d mt b)
    by (assumption || reflexivity).
  now rewrite app_nil_r.
Qed.

Lemma resp_file_missing k fd cache request_path (h : heap cache_t) rp :
  c_str request_path = Some rp ->
  file_load (take 4095 (SERVER_ROOT ++ rp)) = None ->
  resp_file k fd cache request_path h =
    (Exit 3, h,
     [EvFileLoad (take 4095 (SERVER_ROOT ++ rp)) false;
      EvStderr ("cannot find system " ++ rp ++ " file" ++ LF)]).
Proof.
  intros Hp Hf. unfold resp_file.
  rewrite (path_under_root _ rp Hp). run. rewrite Hf.
  cbn [format Ascii.eqb Bool.eqb esc]. rewrite Hp. reflexivity.
Qed.

(** *** Routing *)

Lemma handle_get_request_run k fd cache path request (h : heap cache_t)
    p name f b mt d :
  c_str path = Some p -> has_space p = false -> strlen p <= 106 ->
  ((exists tok, tok <> "" /\ p = "/profile/" ++ tok) /\ name = "/profile.html")
  \/ ((forall tok, tok <> "" -> p <> "/profile/" ++ tok)
      /\ name = "/index.html") ->
  file_load (SERVER_ROOT ++ name) = Some f ->
  c_str (data f) = Some b ->
  c_str (mime_type_get (SERVER_ROOT ++ name)) = Some mt ->
  c_str (now k) = Some d ->
  handle_get_request k fd cache path request h =
    (Ret tt, h,
     EvStdout ("GET: " ++ p)
     :: EvFileLoad (SERVER_ROOT ++ name) true
     :: sent k fd (take 262143 (layout "HTTP/1.1 200 OK" d (size f) mt b))).
Proof.
  intros Hp Hs Hlen Hname Hf Hb Hm Hd. unfold handle_get_request.
  destruct (sscanf_profile p Hs) as [Hyes Hno].
  destruct Hname as [[[tok [Hne Heq]] ->]|[Hnone ->]].
  - assert (strlen tok + 1 <= 100) as Hfit.
    { subst p. rewrite strlen_app in Hlen.
      change (strlen "/profile/") with 9 in Hlen. lia. }
    run. cbn [format Ascii.eqb Bool.eqb]. rewrite Hp. run.
    rewrite (Hyes tok Hne Heq).
    unfold assigned. cbn [nth_error]. rewrite (store_fits _ _ _ Hfit).
    cbn [Z.eqb Pos.eqb].
    rewrite (resp_file_run k fd cache _ h "/profile.html" f b mt d)
      by (assumption || reflexivity).
    now rewrite append_nil_r.
  - destruct (Hno Hnone) as [rv [Hrv Hscan]].
    run. cbn [format Ascii.eqb Bool.eqb]. rewrite Hp. run. rewrite Hscan.
    unfold assigned. cbn [nth_error].
    destruct (Z.eqb_spec rv 1) as [?|_]; [contradiction|].
    rewrite (resp_file_run k fd cache _ h "/index.html" f b mt d)
      by (assumption || reflexivity).
    now rewrite append_nil_r.
Qed.

Lemma strcmp_lit type m s :
  c_str type = Some m -> has_nul s = false ->
  strcmp type (lit s) = Some (if String.eqb m s then 0 else compare_chars m s)
  /\ (String.eqb m s = false -> compare_chars m s <> 0).
Proof.
  intros Hm Hs. unfold strcmp. rewrite Hm, (c_str_lit s Hs).
  pose proof (compare_chars_zero m s (c_str_clean _ _ Hm) Hs) as Hz.
  destruct (String.eqb_spec m s) as [->|Hne].
  - split; [|discriminate]. f_equal. now apply Hz.
  - split; [reflexivity|]. intros _ H. now apply Hne, Hz.
Qed.

(** The method read from [type] selects the handler. *)
Lemma dispatch_run k fd cache request (h : heap cache_t)
    input rv got type path m :
  c_str request = Some input ->
  sscanf input "%s %s" = (rv, got) ->
  assigned 10 (type0 k) got 0 = Some type ->
  assigned 107 (path0 k) got 1 = Some path ->
  c_str type = Some m ->
  dispatch k fd cache request h =
    (if String.eqb m "GET" then handle_get_request k fd cache path request
     else if String.eqb m "POST"
          then handle_post_request k fd cache path request
          else resp_404 k fd) h.
Proof.
  intros Hin Hscan Ht Hp Hm. unfold dispatch. rewrite Hin.
  cbv [bind need ret assign]. rewrite Hscan, Ht, Hp.
  destruct (strcmp_lit type m "GET" Hm eq_refl) as [-> Hget].
  destruct (strcmp_lit type m "POST" Hm eq_refl) as [-> Hpost].
  destruct (String.eqb m "GET").
  - cbn [Z.eqb]. now destruct (handle_get_request _ _ _ _ _) as [[[] ?] ?].
  - destruct (Z.eqb_spec (compare_chars m "GET") 0) as [E|_];
      [now apply Hget in E|].
    destruct (String.eqb m "POST").
    + cbn [Z.eqb].
      now destruct (handle_post_request _ _ _ _ _) as [[[] ?] ?].
    + destruct (Z.eqb_spec (compare_chars m "POST") 0) as [E|_];
        [now apply Hpost in E|].
      now destruct (resp_404 _ _ _) as [[[] ?] ?].
Qed.

Lemma drop_zero s : drop 0 s = s.
Proof. now destruct s. Qed.

Lemma handle_http_request_received k fd cache (h : heap cache_t) bytes :
  incoming k = Some bytes ->
  handle_http_request k fd cache h =
    bind (emit (EvRecv fd 65535 (strlen (take 65535 bytes))))
         (fun _ => dispatch k fd cache
                     (overwrite (request0 k) (take 65535 bytes))) h.
Proof.
  intros Hin. unfold handle_http_request, recv. rewrite Hin.
  change (65536 - 1) with 65535. cbv [bind emit ret]. cbn [app].
  pose proof (strlen_nonneg (take 65535 bytes)).
  destruct (Z.ltb_spec (strlen (take 65535 bytes)) 0); [lia|].
  now destruct (dispatch _ _ _ _ _) as [[[] ?] ?].
Qed.

Lemma handle_http_request_failed k fd cache (h : heap cache_t) :
  incoming k = None ->
  handle_http_request k fd cache h =
    (Ret tt, h, [EvRecv fd 65535 (-1); EvPerror "recv"]).
Proof.
  intros Hin. unfold handle_http_request, recv. now rewrite Hin.
Qed.

(** *** What the handlers leave alone *)

Lemma confined_ret {A} P (a : A) : confined (cache_t := cache_t) P (ret a).
Proof. exists (Ret a), []. split; [constructor | reflexivity]. Qed.

Lemma confined_emit P e : P e -> confined (cache_t := cache_t) P (emit e).
Proof.
  intros H. exists (Ret tt), [e]. split; [now repeat constructor | reflexivity].
Qed.

Lemma confined_exit {A} P st : confined (cache_t := cache_t) (A := A) P (exit st).
Proof. exists (Exit st), []. split; [constructor | reflexivity]. Qed.

Lemma confined_fault {A} P : confined (cache_t := cache_t) (A := A) P fault.
Proof. exists Fault, []. split; [constructor | reflexivity]. Qed.

Lemma confined_blocked {A} P : confined (cache_t := cache_t) (A := A) P blocked.
Proof. exists Blocked, []. split; [constructor | reflexivity]. Qed.

Lemma confined_need {A} P (o : option A) : confined (cache_t := cache_t) P (need o).
Proof. destruct o; [apply confined_ret | apply confined_fault]. Qed.

Lemma confined_bind {A B} P (m : M A) (f : A -> M B) :
  confined P m -> (forall a, confined P (f a)) -> confined P (bind m f).
Proof.
  intros (r & t & Ht & Hm) Hf. destruct r as [a| st | |].
  - destruct (Hf a) as (r' & t' & Ht' & Hfa). exists r', (t ++ t')%list.
    split; [now apply Forall_app|]. intros h. unfold bind.
    now rewrite Hm, Hfa.
  - exists (Exit st), t. split; [assumption|]. intros h. unfold bind. now rewrite Hm.
  - exists Fault, t. split; [assumption|]. intros h. unfold bind. now rewrite Hm.
  - exists Blocked, t. split; [assumption|]. intros h. unfold bind. now rewrite Hm.
Qed.

Lemma confined_weaken {A} (P Q : event -> Prop) (m : M A) :
  (forall e, P e -> Q e) -> confined P m -> confined Q m.
Proof.
  intros HPQ (r & t & Ht & Hm). exists r, t. split; [|assumption].
  eapply Forall_impl; eassumption.
Qed.

(** Breaks a computation into its steps, each of them [confined]. *)
Ltac confine :=
  repeat first
    [ apply confined_ret
    | apply confined_exit
    | apply confined_fault
    | apply confined_blocked
    | apply confined_need
    | apply confined_emit; cbn; solve [auto]
    | apply confined_bind; [|intros ?]
    | match goal with
      | |- confined _ (match ?x with _ => _ end) => destruct x
      end ].

Lemma confined_send_response k fd header content_type body n :
  confined (cache_t := cache_t) handler_event
    (send_response k fd header content_type body n).
Proof. unfold send_response, send, perror. confine. Qed.

Lemma confined_resp_404 k fd : confined handler_event (resp_404 k fd).
Proof.
  unfold resp_404, load, fprintf_stderr. confine;
    apply confined_send_response.
Qed.

Lemma confined_resp_file k fd cache request_path :
  confined handler_event (resp_file k fd cache request_path).
Proof.
  unfold resp_file, load, fprintf_stderr. confine;
    apply confined_send_response.
Qed.

Lemma confined_dispatch k fd cache request :
  confined handler_event (dispatch k fd cache request).
Proof.
  unfold dispatch, handle_get_request, handle_post_request, assign, printf.
  confine; first [apply confined_resp_file | apply confined_resp_404].
Qed.

(** The events of a whole request: those of the handlers, the receive and
    the report of its failure. *)
Lemma confined_handle_http_request k fd cache :
  confined (fun e => handler_event e \/ is_recv e = true \/ e = EvPerror "recv")
    (handle_http_request k fd cache).
Proof.
  unfold handle_http_request, recv, perror. confine.
Qed.

Lemma main_loop_confined listenfd cache script :
  confined (fun e => is_cache_create e = false)
    (main_loop listenfd cache script).
Proof.
  induction script as [|a script IH]; cbn [Server.main_loop].
  - apply confined_blocked.
  - apply confined_bind; [now apply confined_emit | intros _].
    apply confined_bind; [|intros _; exact IH].
    destruct (newfd a =? -1); [now apply confined_emit|].
    apply confined_bind; [unfold printf; confine | intros _].
    apply confined_bind; [|intros _; now apply confined_emit].
    eapply confined_weaken; [|apply confined_handle_http_request].
    intros e [He|[He| ->]]; [| |reflexivity]; now destruct e.
Qed.

(** *** Who answers *)

Lemma answers_bind_l {A B} fd (m : M A) (f : A -> M B) :
  answers fd m -> answers fd (bind m f).
Proof.
  intros Hm h b h' t. unfold bind.
  destruct (m h) as [[[a| | |] h1] t1] eqn:E; try discriminate.
  destruct (f a h1) as [[r h2] t2]. intros [= -> -> <-].
  destruct (Hm h a h1 t1 E) as (bytes & rv & Hin).
  exists bytes, rv. apply in_or_app. now left.
Qed.

Lemma answers_bind_r {A B} fd (m : M A) (f : A -> M B) :
  (forall a, answers fd (f a)) -> answers fd (bind m f).
Proof.
  intros Hf h b h' t. unfold bind.
  destruct (m h) as [[[a| | |] h1] t1] eqn:E; try discriminate.
  destruct (f a h1) as [[r h2] t2] eqn:E2. intros [= -> -> <-].
  destruct (Hf a h1 b h' t2 E2) as (bytes & rv & Hin).
  exists bytes, rv. apply in_or_app. now right.
Qed.

Lemma answers_exit {A} fd st : answers (cache_t := cache_t) (A := A) fd (exit st).
Proof. intros h a h' t. discriminate. Qed.

Lemma answers_fault {A} fd : answers (cache_t := cache_t) (A := A) fd fault.
Proof. intros h a h' t. discriminate. Qed.

Lemma answers_send_response k fd header content_type body n :
  answers (cache_t := cache_t) fd
    (send_response k fd header content_type body n).
Proof.
  unfold send_response. apply answers_bind_r. intros response.
  apply answers_bind_l. intros h a h' t [= <- <- <-].
  eexists _, _. now left.
Qed.

Ltac answer :=
  repeat first
    [ apply answers_exit
    | apply answers_fault
    | solve [apply answers_bind_l; apply answers_send_response]
    | apply answers_bind_r; intros ?
    | match goal with
      | |- answers _ (match ?x with _ => _ end) => destruct x
      end ].

Lemma answers_resp_404 k fd : answers fd (resp_404 k fd).
Proof. unfold resp_404, need. answer. Qed.

Lemma answers_resp_file k fd cache request_path :
  answers fd (resp_file k fd cache request_path).
Proof. unfold resp_file, need. answer. Qed.

Lemma answers_dispatch k fd cache request :
  answers fd (dispatch k fd cache request).
Proof.
  unfold dispatch, handle_get_request, handle_post_request, need.
  answer; first [apply answers_resp_file | apply answers_resp_404].
Qed.

(** *** The claims of the specification *)

(** C1: a GET request whose path is [/profile/<token>], with a token that
    is not empty, is answered with status 200 and the payload of
    [profile.html]; a GET request with any other path is answered with
    status 200 and the payload of [index.html].  The file loaded is the
    fixed name under the document root, and the bytes sent are built from
    that payload alone: the token does not occur in them. *)
Theorem get_request_is_served k fd cache (h : heap cache_t)
    bytes input rv p name f b mt d :
  incoming k = Some bytes ->
  c_str (overwrite (request0 k) (take 65535 bytes)) = Some input ->
  sscanf input "%s %s" = (rv, ["GET"; p]) ->
  strlen p <= 106 ->
  ((exists tok, tok <> "" /\ p = "/profile/" ++ tok) /\ name = "/profile.html")
  \/ ((forall tok, tok <> "" -> p <> "/profile/" ++ tok)
      /\ name = "/index.html") ->
  file_load (SERVER_ROOT ++ name) = Some f ->
  c_str (data f) = Some b ->
  c_str (mime_type_get (SERVER_ROOT ++ name)) = Some mt ->
  c_str (now k) = Some d ->
  handle_http_request k fd cache h =
    (Ret tt, h,
     EvRecv fd 65535 (strlen (take 65535 bytes))
     :: EvStdout ("GET: " ++ p)
     :: EvFileLoad (SERVER_ROOT ++ name) true
     :: sent k fd (take 262143 (layout "HTTP/1.1 200 OK" d (size f) mt b))).
Proof.
  intros Hin Hreq Hscan Hlen Hname Hf Hb Hm Hd.
  pose proof (sscanf_words input "%s %s" (c_str_clean _ _ Hreq)) as Hw.
  rewrite Hscan in Hw. cbn [snd] in Hw.
  apply Forall_inv_tail, Forall_inv in Hw. destruct Hw as (_ & Hsp & Hnul).
  rewrite (handle_http_request_received k fd cache h bytes Hin).
  unfold bind, emit.
  rewrite (dispatch_run k fd cache _ h input rv ["GET"; p]
             (overwrite (type0 k) (lit "GET")) (overwrite (path0 k) (lit p))
             "GET" Hreq Hscan).
  - cbn [String.eqb Ascii.eqb Bool.eqb].
    rewrite (handle_get_request_run k fd cache _ _ h p name f b mt d);
      try assumption; [reflexivity|].
    now apply (c_str_store 107 (path0 k)), store_fits; [|lia].
  - reflexivity.
  - unfold assigned. cbn [nth_error]. apply store_fits. lia.
  - now apply c_str_lit_app.
Qed.

(** C2: the method token alone selects the handler.  When it is [GET] the
    request goes to the GET handler; when it is [POST] the answer is the
    404 response, whatever the path and the body; any other token yields
    the 404 response as well. *)
Theorem dispatch_by_method k fd cache (h : heap cache_t)
    bytes input rv got type path m f b mt d :
  incoming k = Some bytes ->
  c_str (overwrite (request0 k) (take 65535 bytes)) = Some input ->
  sscanf input "%s %s" = (rv, got) ->
  assigned 10 (type0 k) got 0 = Some type ->
  assigned 107 (path0 k) got 1 = Some path ->
  c_str type = Some m ->
  file_load "./serverfiles/404.html" = Some f ->
  c_str (data f) = Some b ->
  c_str (mime_type_get "./serverfiles/404.html") = Some mt ->
  c_str (now k) = Some d ->
  let n := strlen (take 65535 bytes) in
  let not_found :=
    EvFileLoad "./serverfiles/404.html" true
    :: sent k fd (take 262143
                    (layout "HTTP/1.1 404 NOT FOUND" d (size f) mt b)) in
  (m = "GET" ->
   handle_http_request k fd cache h =
     bind (emit (EvRecv fd 65535 n))
          (fun _ => handle_get_request k fd cache path
                      (overwrite (request0 k) (take 65535 bytes))) h)
  /\ (m = "POST" ->
      handle_http_request k fd cache h =
        (Ret tt, h,
         EvRecv fd 65535 n :: EvStdout ("POST: " ++ input) :: not_found))
  /\ (m <> "GET" -> m <> "POST" ->
      handle_http_request k fd cache h =
        (Ret tt, h, EvRecv fd 65535 n :: not_found)).
Proof.
  intros Hin Hreq Hscan Ht Hp Hm Hf Hb Hmt Hd n not_found.
  rewrite (handle_http_request_received k fd cache h bytes Hin).
  unfold bind at 1 3 4, emit.
  rewrite (dispatch_run k fd cache _ h input rv got type path m
             Hreq Hscan Ht Hp Hm).
  repeat split.
  - intros ->. reflexivity.
  - intros ->. cbn [String.eqb Ascii.eqb Bool.eqb].
    unfold handle_post_request. run. cbn [format Ascii.eqb Bool.eqb].
    rewrite Hreq, (resp_404_run k fd h f b mt d Hf Hb Hmt Hd).
    now rewrite append_nil_r.
  - intros Hget Hpost.
    apply String.eqb_neq in Hget, Hpost. rewrite Hget, Hpost.
    now rewrite (resp_404_run k fd h f b mt d Hf Hb Hmt Hd).
Qed.

(** C3: when the file that resp_404 or resp_file asks for cannot be
    loaded, the process exits with status 3 after a message on the error
    stream, and nothing is sent on the connection. *)
Theorem missing_file_is_fatal k fd cache request_path rp (h : heap cache_t) :
  (file_load "./serverfiles/404.html" = None ->
   resp_404 k fd h =
     (Exit 3, h,
      [EvFileLoad "./serverfiles/404.html" false;
       EvStderr ("cannot find system 404 file" ++ LF)]))
  /\ (c_str request_path = Some rp ->
      file_load (take 4095 (SERVER_ROOT ++ rp)) = None ->
      resp_file k fd cache request_path h =
        (Exit 3, h,
         [EvFileLoad (take 4095 (SERVER_ROOT ++ rp)) false;
          EvStderr ("cannot find system " ++ rp ++ " file" ++ LF)])).
Proof.
  split.
  - apply resp_404_missing.
  - apply resp_file_missing.
Qed.

(** C5: the buffer that send_response hands to [send] is the status
    line, the Date header, [Connection: close], the Content-Length header,
    the Content-Type header, an empty line and the body, in this order and
    with bare line feeds.  The body is the string found at [body], as much
    of it as the response buffer has room for after the header block. *)
Theorem response_layout k fd header content_type body n (h : heap cache_t)
    hs d t b :
  c_str header = Some hs -> c_str (now k) = Some d ->
  c_str content_type = Some t -> c_str body = Some b ->
  strlen (head hs d n t) <= 262143 ->
  let room := 262143 - strlen (head hs d n t) in
  send_response k fd header content_type body n h =
    (Ret (send_rv k (layout hs d n t (take room b))), h,
     sent k fd (layout hs d n t (take room b)))
  /\ (strlen b <= room -> take room b = b)
  /\ forall body',
       layout hs d n t body' =
         hs ++ LF ++ "Date: " ++ d ++ "Connection: close" ++ LF ++
         "Content-Length: " ++ dec n ++ LF ++ "Content-Type: " ++ t ++ LF ++
         LF ++ body'.
Proof.
  intros Hh Hd Ht Hb Hfit room.
  split; [|split; [apply take_all | reflexivity]].
  rewrite (send_response_run k fd _ _ _ n h hs d t b) by assumption.
  rewrite !(layout_head hs d n t). now rewrite take_app by assumption.
Qed.

(** C6: handle_http_request calls [recv] once, asking for 65535 bytes
    (64 KiB - 1), so that at most that many are read; when the receive
    fails the failure is reported and the function returns: no handler
    runs and nothing is sent. *)
Theorem single_bounded_receive k fd cache (h : heap cache_t) :
  (exists rv rest,
     snd (handle_http_request k fd cache h) = EvRecv fd 65535 rv :: rest
     /\ rv <= 65535
     /\ Forall (fun e => is_recv e = false) rest)
  /\ (incoming k = None ->
      handle_http_request k fd cache h =
        (Ret tt, h, [EvRecv fd 65535 (-1); EvPerror "recv"])).
Proof.
  split; [|apply handle_http_request_failed].
  destruct (incoming k) as [bytes|] eqn:Hin.
  - rewrite (handle_http_request_received k fd cache h bytes Hin).
    destruct (confined_dispatch k fd cache
                (overwrite (request0 k) (take 65535 bytes)))
      as (r & t & Ht & Hrun).
    unfold bind, emit. rewrite Hrun. exists (strlen (take 65535 bytes)), t.
    repeat split.
    + pose proof (strlen_take 65535 bytes). lia.
    + eapply Forall_impl; [|exact Ht]. intros e He. now destruct e.
  - rewrite (handle_http_request_failed k fd cache h Hin).
    exists (-1), [EvPerror "recv"]. repeat split; [lia|].
    now repeat constructor.
Qed.

(** A method of more than 9 characters does not fit [type], and a path of
    more than 106 characters does not fit [path]: the scan writes past the
    end of the array. *)
Lemma overlong_token_faults k fd cache (h : heap cache_t) bytes input rv got :
  incoming k = Some bytes ->
  c_str (overwrite (request0 k) (take 65535 bytes)) = Some input ->
  sscanf input "%s %s" = (rv, got) ->
  (exists tok, nth_error got 0 = Some tok /\ 9 < strlen tok)
  \/ (exists m p, nth_error got 0 = Some m /\ strlen m <= 9 /\
                  nth_error got 1 = Some p /\ 106 < strlen p) ->
  handle_http_request k fd cache h =
    (Fault, h, [EvRecv fd 65535 (strlen (take 65535 bytes))]).
Proof.
  intros Hin Hreq Hscan Hlong.
  rewrite (handle_http_request_received k fd cache h bytes Hin).
  unfold dispatch. rewrite Hreq. cbv [bind need ret emit assign].
  rewrite Hscan. unfold assigned.
  destruct Hlong as [(tok & -> & Hlen)|(m & p & -> & Hm & -> & Hlen)].
  - now rewrite store_overflow by lia.
  - rewrite store_fits by lia. now rewrite store_overflow by lia.
Qed.

(** C8: main creates one cache, with arguments 10 and 0, before anything
    else, and never another; a request is handled the same way whatever
    the cache pointer and the heap of caches are, and leaves that heap as
    it found it. *)
Theorem cache_is_bystander :
  (forall script h, exists r t,
     main script h =
       (r, (h ++ [cache_create 10 0])%list, EvCacheCreate 10 0 :: t)
     /\ Forall (fun e => is_cache_create e = false) t)
  /\ (forall k fd, exists r t, forall cache h,
        handle_http_request k fd cache h = (r, h, t)).
Proof.
  split.
  - intros script h. unfold Server.main.
    set (listenfd := get_listener_socket PORT).
    assert (forall cache,
      confined (fun e => is_cache_create e = false)
        (bind (emit (EvListen PORT listenfd)) (fun _ =>
           if listenfd <? 0
           then bind (fprintf_stderr
                        (esc "webserver: fatal error getting listening socket\n") [])
                     (fun _ => exit 1)
           else bind (printf (esc "webserver: waiting for connections on port %s...\n")
                        [ArgS (lit PORT)])
                     (fun _ => bind (main_loop listenfd cache script)
                                 (fun _ => ret 0))))) as Hrest.
    { intros cache. apply confined_bind; [now apply confined_emit | intros _].
      destruct (listenfd <? 0).
      - unfold fprintf_stderr. confine.
      - apply confined_bind; [unfold printf; confine | intros _].
        apply confined_bind; [apply main_loop_confined | intros _].
        apply confined_ret. }
    destruct (Hrest (List.length h)) as (r & t & Ht & Hrun).
    exists r, t. split; [|assumption].
    unfold bind at 1, make_cache. now rewrite Hrun.
  - intros k fd.
    destruct (confined_handle_http_request k fd 0%nat) as (r & t & _ & Hrun).
    exists r, t. intros cache h. exact (Hrun h).
Qed.

(** C9: an iteration whose [accept] fails reports the failure and goes on
    to the next [accept]: no connection is handled and the process does
    not exit.  However many accepts fail in a row, the server is still
    waiting for connections afterwards. *)
Theorem failed_accept_continues listenfd cache a script (h : heap cache_t) :
  newfd a = -1 ->
  main_loop listenfd cache (a :: script) h =
    (let '(r, h', t) := main_loop listenfd cache script h in
     (r, h', EvAccept listenfd (-1) :: EvPerror "accept" :: t))
  /\ (forall failures,
        Forall (fun a => newfd a = -1) failures ->
        fst (main_loop listenfd cache failures h) = (Blocked, h)).
Proof.
  intros Hfail. split.
  - cbn [Server.main_loop]. rewrite Hfail. cbn [Z.eqb Pos.eqb].
    cbv [bind emit perror]. cbn [app].
    now destruct (main_loop listenfd cache script h) as [[[] ?] ?].
  - induction 1 as [|x failures Hx _ IH]; [reflexivity|].
    cbn [Server.main_loop]. rewrite Hx. cbn [Z.eqb Pos.eqb].
    cbv [bind emit perror]. cbn [app].
    destruct (main_loop listenfd cache failures h) as [[r h'] t].
    cbn [fst] in IH. injection IH as -> ->. reflexivity.
Qed.

(** C10: a receive of zero bytes is not a failure.  The function goes on
    with the request array as it found it, which the receive has not
    written and to which no terminator is added: when the array holds no
    terminator the scan runs off its end; otherwise the two tokens are
    scanned out of the bytes that were lying there, and the string then
    found in [type] selects the GET handler, the POST handler or the 404
    response (a token that does not fit its array, or a [type] without
    terminator, being undefined as for any request).  Nothing is reported, and the function returns only after a
    response was sent; the report-and-return path is taken exactly when the
    result of the receive is negative. *)
Theorem zero_byte_receive_is_dispatched k fd cache (h : heap cache_t) :
  incoming k = Some "" ->
  handle_http_request k fd cache h =
    bind (emit (EvRecv fd 65535 0))
         (fun _ => dispatch k fd cache (request0 k)) h
  /\ (c_str (request0 k) = None ->
      handle_http_request k fd cache h = (Fault, h, [EvRecv fd 65535 0]))
  /\ (forall input rv got type path m,
        c_str (request0 k) = Some input ->
        sscanf input "%s %s" = (rv, got) ->
        assigned 10 (type0 k) got 0 = Some type ->
        assigned 107 (path0 k) got 1 = Some path ->
        c_str type = Some m ->
        handle_http_request k fd cache h =
          bind (emit (EvRecv fd 65535 0))
               (fun _ =>
                  if String.eqb m "GET"
                  then handle_get_request k fd cache path (request0 k)
                  else if String.eqb m "POST"
                       then handle_post_request k fd cache path (request0 k)
                       else resp_404 k fd) h)
  /\ (forall input rv got,
        c_str (request0 k) = Some input ->
        sscanf input "%s %s" = (rv, got) ->
        assigned 10 (type0 k) got 0 = None
        \/ (exists type,
              assigned 10 (type0 k) got 0 = Some type
              /\ (assigned 107 (path0 k) got 1 = None \/ c_str type = None)) ->
        handle_http_request k fd cache h = (Fault, h, [EvRecv fd 65535 0]))
  /\ ~ In (EvPerror "recv") (snd (handle_http_request k fd cache h))
  /\ (fst (fst (handle_http_request k fd cache h)) = Ret tt ->
      exists bytes rv,
        In (EvSend fd bytes rv) (snd (handle_http_request k fd cache h)))
  /\ (forall k' rv rest,
        snd (handle_http_request k' fd cache h) = EvRecv fd 65535 rv :: rest ->
        (rest = [EvPerror "recv"]
         /\ fst (handle_http_request k' fd cache h) = (Ret tt, h))
        <-> rv < 0).
Proof.
  intros Hin.
  assert (forall k1 bytes, incoming k1 = Some bytes ->
          ~ In (EvPerror "recv")
              (snd (dispatch k1 fd cache
                      (overwrite (request0 k1) (take 65535 bytes)) h)))
    as Hquiet.
  { intros k1 bytes _.
    destruct (confined_dispatch k1 fd cache
                (overwrite (request0 k1) (take 65535 bytes)))
      as (r & t & Ht & Hrun).
    rewrite Hrun. cbn [snd]. intros Hbad.
    rewrite Forall_forall in Ht. now apply Ht in Hbad. }
  pose proof (handle_http_request_received k fd cache h "" Hin) as Hrun.
  change (take 65535 "") with "" in Hrun. change (strlen "") with 0 in Hrun.
  unfold overwrite in Hrun. cbn [append] in Hrun.
  change (strlen "") with 0 in Hrun. rewrite drop_zero in Hrun.
  split; [exact Hrun|].
  split.
  { intros Hnone. rewrite Hrun. unfold Server.dispatch. rewrite Hnone.
    reflexivity. }
  split.
  { intros input rv got type path m Hreq Hscan Ht Hp Hm. rewrite Hrun.
    unfold bind at 1 2, emit.
    now rewrite (dispatch_run k fd cache (request0 k) h input rv got
                   type path m Hreq Hscan Ht Hp Hm). }
  split.
  { intros input rv got Hreq Hscan Hbad. rewrite Hrun.
    unfold Server.dispatch. rewrite Hreq. cbv [bind need ret emit assign].
    rewrite Hscan.
    destruct Hbad as [->|(type & -> & [->| Htype])]; try reflexivity.
    destruct (assigned 107 (path0 k) got 1); [|reflexivity].
    unfold strcmp. now rewrite Htype. }
  pose proof (Hquiet k "" Hin) as Hq.
  change (take 65535 "") with "" in Hq. unfold overwrite in Hq.
  cbn [append] in Hq. change (strlen "") with 0 in Hq.
  rewrite drop_zero in Hq.
  rewrite Hrun. unfold bind, emit.
  destruct (dispatch k fd cache (request0 k) h) as [[r h'] t] eqn:Hd.
  cbn [fst snd app] in *. repeat split.
  - intros [Hbad|Hbad]; [discriminate | now apply Hq].
  - intros Hret. destruct r as [[]| | |]; try discriminate.
    destruct (answers_dispatch k fd cache (request0 k) h tt h' t Hd)
      as (bytes & rv & Hsent).
    exists bytes, rv. now right.
  - intros [-> _].
    destruct (incoming k') as [bytes|] eqn:Hin'.
    + rewrite (handle_http_request_received k' fd cache h bytes Hin') in H.
      pose proof (Hquiet k' bytes Hin') as Hq'.
      unfold bind, emit in H.
      destruct (dispatch k' fd cache _ h) as [[r' h''] t'].
      cbn [snd app] in H, Hq'. injection H as _ Ht'. subst t'.
      exfalso. apply Hq'. now left.
    + rewrite (handle_http_request_failed k' fd cache h Hin') in H.
      cbn [snd] in H. injection H as <-. lia.
  - destruct (incoming k') as [bytes|] eqn:Hin'.
    + rewrite (handle_http_request_received k' fd cache h bytes Hin') in H.
      unfold bind, emit in H.
      destruct (dispatch k' fd cache _ h) as [[r' h''] t'].
      cbn [snd app] in H. injection H as <- _.
      pose proof (strlen_nonneg (take 65535 bytes)). lia.
    + rewrite (handle_http_request_failed k' fd cache h Hin') in H.
      cbn [snd] in H. now injection H as _ <-.
  - destruct (incoming k') as [bytes|] eqn:Hin'.
    + rewrite (handle_http_request_received k' fd cache h bytes Hin') in H.
      unfold bind, emit in H.
      destruct (dispatch k' fd cache _ h) as [[r' h''] t'].
      cbn [snd app] in H. injection H as <- _.
      pose proof (strlen_nonneg (take 65535 bytes)). lia.
    + now rewrite (handle_http_request_failed k' fd cache h Hin').
Qed.

(** *** Every way a response can go *)

Lemma send_response_cases k fd header content_type body n (h : heap cache_t) :
  send_response k fd header content_type body n h = (Fault, h, [])
  \/ exists hs d t b,
       c_str header = Some hs /\ c_str (now k) = Some d /\
       c_str content_type = Some t /\ c_str body = Some b /\
       send_response k fd header content_type body n h =
         (Ret (send_rv k (take 262143 (layout hs d n t b))), h,
          sent k fd (take 262143 (layout hs d n t b))).
Proof.
  destruct (c_str header) as [hs|] eqn:Hh, (c_str (now k)) as [d|] eqn:Hd,
    (c_str content_type) as [t|] eqn:Ht, (c_str body) as [b|] eqn:Hb;
    [right; exists hs, d, t, b; repeat split;
     now apply send_response_run | left ..];
    unfold send_response, snprintf, response_format;
    cbn [format Ascii.eqb Bool.eqb]; rewrite ?Hh, ?Hd, ?Ht, ?Hb;
    reflexivity.
Qed.

Lemma responded_after_load k fd status path header mime_type f
    (h : heap cache_t) :
  c_str header = Some status ->
  exists r t,
    bind (send_response k fd header mime_type (data f) (size f))
         (fun _ => ret tt) h = (r, h, t)
    /\ responded k fd status path r (EvFileLoad path true :: t).
Proof.
  intros Hs. unfold bind.
  destruct (send_response_cases k fd header mime_type (data f) (size f) h)
    as [->|(hs & d & t & b & Hh & Hd & Ht & Hb & ->)].
  - exists Fault, []. split; [reflexivity|]. right. left. now split.
  - rewrite Hs in Hh. injection Hh as <-.
    exists (Ret tt), (sent k fd (take 262143 (layout status d (size f) t b))).
    cbv [ret]. rewrite app_nil_r.
    split; [reflexivity|]. right. right. split; [reflexivity|].
    exists d, (size f), t, b. repeat split; eauto using c_str_clean.
Qed.

Lemma resp_404_responded k fd (h : heap cache_t) :
  exists r t,
    resp_404 k fd h = (r, h, t)
    /\ responded k fd "HTTP/1.1 404 NOT FOUND" "./serverfiles/404.html" r t.
Proof.
  unfold Server.resp_404. rewrite path_404.
  cbv [bind need ret load emit]. cbn [app].
  destruct (file_load "./serverfiles/404.html") as [f|].
  - destruct (responded_after_load k fd "HTTP/1.1 404 NOT FOUND"
                "./serverfiles/404.html" (lit "HTTP/1.1 404 NOT FOUND")
                (mime_type_get "./serverfiles/404.html") f h eq_refl)
      as (r & t & Hrun & Hshape).
    unfold bind, ret in Hrun. rewrite Hrun. now exists r, (EvFileLoad "./serverfiles/404.html" true :: t).
  - eexists _, _. split; [reflexivity|]. left. split; [reflexivity|].
    now eexists.
Qed.

Lemma resp_file_responded k fd cache request_path rp (h : heap cache_t) :
  c_str request_path = Some rp ->
  exists r t,
    resp_file k fd cache request_path h = (r, h, t)
    /\ responded k fd "HTTP/1.1 200 OK" (take 4095 (SERVER_ROOT ++ rp)) r t.
Proof.
  intros Hp. unfold Server.resp_file. rewrite (path_under_root _ rp Hp).
  set (path := take 4095 (SERVER_ROOT ++ rp)).
  cbv [bind need ret load emit fprintf_stderr]. cbn [app].
  destruct (file_load path) as [f|].
  - destruct (responded_after_load k fd "HTTP/1.1 200 OK" path
                (lit "HTTP/1.1 200 OK") (mime_type_get path) f h eq_refl)
      as (r & t & Hrun & Hshape).
    unfold bind, ret in Hrun. rewrite Hrun.
    now exists r, (EvFileLoad path true :: t).
  - cbn [format Ascii.eqb Bool.eqb esc]. rewrite Hp.
    eexists _, _. split; [reflexivity|]. left. split; [reflexivity|].
    now eexists.
Qed.

Lemma routed_direct k fd status path r t :
  In (status, path) routes -> responded k fd status path r t ->
  routed k fd r t.
Proof.
  intros Hin Hr. right. exists [], status, path, t.
  repeat split; [constructor | assumption | assumption].
Qed.

Lemma routed_logged k fd text status path r t :
  In (status, path) routes -> responded k fd status path r t ->
  routed k fd r (EvStdout text :: t).
Proof.
  intros Hin Hr. right. exists [EvStdout text], status, path, t.
  repeat split; [now repeat constructor | assumption | assumption].
Qed.

(** A run that stopped as undefined with only output lines so far. *)
Ltac faulted :=
  eexists Fault, _; split; [reflexivity|]; left;
  split; [reflexivity | repeat constructor].

Lemma handle_get_request_cases k fd cache path request (h : heap cache_t) :
  exists r t,
    handle_get_request k fd cache path request h = (r, h, t)
    /\ routed k fd r t.
Proof.
  unfold Server.handle_get_request. run.
  cbn [format Ascii.eqb Bool.eqb].
  destruct (c_str path) as [p|].
  - destruct (sscanf p "/profile/%s") as [rv got].
    destruct (assigned 100 (zeroed 100) got 0) as [prof|].
    + destruct (rv =? 1).
      * destruct (resp_file_responded k fd cache (lit "/profile.html")
                    "/profile.html" h eq_refl) as (r & t & Hrun & Hr).
        rewrite Hrun. eexists _, _. split; [reflexivity|].
        apply (routed_logged k fd _ "HTTP/1.1 200 OK"
                 "./serverroot/profile.html"); [cbn; auto | exact Hr].
      * destruct (resp_file_responded k fd cache (lit "/index.html")
                    "/index.html" h eq_refl) as (r & t & Hrun & Hr).
        rewrite Hrun. eexists _, _. split; [reflexivity|].
        apply (routed_logged k fd _ "HTTP/1.1 200 OK"
                 "./serverroot/index.html"); [cbn; auto | exact Hr].
    + faulted.
  - faulted.
Qed.

Lemma dispatch_cases k fd cache request (h : heap cache_t) :
  exists r t,
    dispatch k fd cache request h = (r, h, t) /\ routed k fd r t.
Proof.
  destruct (resp_404_responded k fd h) as (r4 & t4 & Hrun4 & Hr4).
  assert (In ("HTTP/1.1 404 NOT FOUND", "./serverfiles/404.html") routes)
    as Hin4 by (cbn; auto).
  unfold Server.dispatch. cbv [bind need ret fault assign].
  destruct (c_str request) as [input|] eqn:Hreq;
    [|faulted].
  destruct (sscanf input "%s %s") as [rv got].
  destruct (assigned 10 (type0 k) got 0) as [type|];
    [|faulted].
  destruct (assigned 107 (path0 k) got 1) as [path|];
    [|faulted].
  destruct (strcmp type (lit "GET")) as [is_get|];
    [|faulted].
  destruct (is_get =? 0).
  - destruct (handle_get_request_cases k fd cache path request h)
      as (r & t & Hrun & Hr).
    rewrite Hrun. cbn [app]. eauto.
  - destruct (strcmp type (lit "POST")) as [is_post|];
      [|faulted].
    destruct (is_post =? 0).
    + unfold Server.handle_post_request. run.
      cbn [format Ascii.eqb Bool.eqb]. rewrite Hreq, Hrun4.
      eexists _, _. split; [reflexivity|].
      now apply (routed_logged k fd _ "HTTP/1.1 404 NOT FOUND"
                   "./serverfiles/404.html").
    + rewrite Hrun4. cbn [app]. exists r4, t4. split; [reflexivity|].
      now apply (routed_direct k fd "HTTP/1.1 404 NOT FOUND"
                   "./serverfiles/404.html").
Qed.

Lemma handle_http_request_cases k fd cache (h : heap cache_t) :
  exists r rv t,
    handle_http_request k fd cache h = (r, h, EvRecv fd 65535 rv :: t)
    /\ ((incoming k = None /\ r = Ret tt /\ t = [EvPerror "recv"])
        \/ (incoming k <> None /\ routed k fd r t)).
Proof.
  destruct (incoming k) as [bytes|] eqn:Hin.
  - rewrite (handle_http_request_received k fd cache h bytes Hin).
    destruct (dispatch_cases k fd cache
                (overwrite (request0 k) (take 65535 bytes)) h)
      as (r & t & Hrun & Hr).
    unfold bind, emit. rewrite Hrun. exists r, (strlen (take 65535 bytes)), t.
    split; [reflexivity|]. right. now split.
  - rewrite (handle_http_request_failed k fd cache h Hin).
    exists (Ret tt), (-1), [EvPerror "recv"]. split; [reflexivity|]. now left.
Qed.

Lemma count_app f (a b : list event) :
  count f (a ++ b) = (count f a + count f b)%nat.
Proof. unfold count. now rewrite filter_app, length_app. Qed.

Lemma count_logs f logs :
  (forall e, is_stdout e = true -> f e = false) ->
  Forall (fun e => is_stdout e = true) logs -> count f logs = 0%nat.
Proof.
  intros Hf. induction 1 as [|e logs He _ IH]; [reflexivity|].
  unfold count in *. cbn. now rewrite (Hf e He).
Qed.

Lemma sent_facts k fd bytes :
  count is_send (sent k fd bytes) = 1%nat
  /\ count is_load (sent k fd bytes) = 0%nat
  /\ forall e, In e (sent k fd bytes) ->
       e = EvSend fd bytes (send_rv k bytes) \/ e = EvPerror "send".
Proof.
  unfold sent. destruct (send_rv k bytes <? 0);
    (split; [reflexivity | split; [reflexivity|]]); cbn.
  - intros e [<-|[<-|[]]]; auto.
  - intros e [<-|[]]; auto.
Qed.

Lemma prefix_app a b : String.prefix a (a ++ b) = true.
Proof.
  induction a as [|c a IH]; cbn; [now destruct b|].
  destruct (ascii_dec c c); [exact IH | contradiction].
Qed.

Lemma response_begins status d n mt b :
  In status (map fst routes) ->
  String.prefix (status ++ LF) (take 262143 (layout status d n mt b)) = true.
Proof.
  intros Hin.
  assert (strlen (status ++ LF) <= 262143) as Hfit.
  { cbn in Hin. destruct Hin as [<-|[<-|[<-|[]]]]; vm_compute; discriminate. }
  unfold layout. rewrite <- (append_assoc status LF).
  rewrite take_app by assumption. apply prefix_app.
Qed.

Lemma responded_well_behaved k fd status path r t :
  In (status, path) routes -> responded k fd status path r t ->
  well_behaved fd r t.
Proof.
  intros Hin [[-> [msg ->]]|[[-> ->]|[-> (d & n & mt & b & Hd & Hm & Hb & ->)]]];
    assert (In path (map snd routes)) as Hp
      by (apply (in_map snd) in Hin; exact Hin).
  - repeat split.
    + cbn. lia.
    + cbn. lia.
    + repeat (constructor; [first [exact Hp | exact I]|]). constructor.
    + intros fd' bytes rv [|[|[]]]; discriminate.
    + now injection H.
    + intros _. exists path. now left.
    + now exists 3.
  - repeat split.
    + cbn. lia.
    + cbn. lia.
    + repeat (constructor; [first [exact Hp | exact I]|]). constructor.
    + intros fd' bytes rv [|[]]; discriminate.
    + discriminate.
    + intros [st Hst]. discriminate.
    + intros [p [Hbad|[]]]. discriminate.
  - set (bytes := take 262143 (layout status d n mt b)).
    destruct (sent_facts k fd bytes) as (Hs & Hl & Hev).
    assert (has_nul bytes = false) as Hclean.
    { apply has_nul_take, layout_clean; try assumption.
      apply (in_map fst) in Hin. cbn in Hin.
      destruct Hin as [<-|[<-|[<-|[]]]]; reflexivity. }
    repeat split.
    + change (EvFileLoad path true :: sent k fd bytes)
        with ([EvFileLoad path true] ++ sent k fd bytes)%list.
      rewrite !count_app, Hs, Hl. cbn. lia.
    + change (EvFileLoad path true :: sent k fd bytes)
        with ([EvFileLoad path true] ++ sent k fd bytes)%list.
      rewrite !count_app, Hl. cbn. lia.
    + constructor; [assumption|]. apply Forall_forall. intros e He.
      destruct (Hev e He) as [->| ->]; [|exact I].
      repeat split; [|assumption]. apply (strlen_take 262143).
    + intros fd' bytes' rv [Hbad|He]; [discriminate|].
      destruct (Hev _ He) as [Heq|Heq]; [|discriminate].
      injection Heq as -> -> _. exists status, path.
      repeat split; [assumption | now left |].
      apply response_begins. now apply (in_map fst) in Hin.
    + discriminate.
    + discriminate.
    + intros [st Hst]. discriminate.
    + intros [p [Hbad|He]]; [discriminate|].
      destruct (Hev _ He); discriminate.
Qed.

Lemma routed_well_behaved k fd r t : routed k fd r t -> well_behaved fd r t.
Proof.
  intros [[-> Hlogs]|(logs & status & path & t' & -> & Hlogs & Hin & Hr)].
  - assert (forall e, In e t -> exists text, e = EvStdout text) as Hout.
    { rewrite Forall_forall in Hlogs. intros e He. apply Hlogs in He.
      destruct e; try discriminate. now eexists. }
    repeat split.
    + rewrite (count_logs is_send), (count_logs is_load);
        [lia | now intros [] | assumption | now intros [] | assumption].
    + rewrite (count_logs is_load); [lia | now intros [] | assumption].
    + apply Forall_forall. intros e He.
      destruct (Hout e He) as [text ->]. exact I.
    + intros fd' bytes rv He. destruct (Hout _ He). discriminate.
    + discriminate.
    + discriminate.
    + intros [st Hst]. discriminate.
    + intros [p He]. destruct (Hout _ He). discriminate.
  - assert (forall e, In e logs -> exists text, e = EvStdout text) as Hout.
    { rewrite Forall_forall in Hlogs. intros e He. apply Hlogs in He.
      destruct e; try discriminate. now eexists. }
    destruct (responded_well_behaved k fd status path r t' Hin Hr)
      as ([Hc1 Hc2] & Hall & Hsend & Hexit & Hmiss).
    assert (count is_send logs = 0%nat) as Hs0
      by (apply count_logs; [now intros [] | assumption]).
    assert (count is_load logs = 0%nat) as Hl0
      by (apply count_logs; [now intros [] | assumption]).
    repeat split.
    + rewrite !count_app, Hs0, Hl0. lia.
    + rewrite !count_app, Hl0. lia.
    + apply Forall_app. split; [|assumption].
      apply Forall_forall. intros e He.
      destruct (Hout e He) as [text ->]. exact I.
    + intros fd' bytes rv He. apply in_app_or in He as [He|He].
      * destruct (Hout _ He). discriminate.
      * destruct (Hsend _ _ _ He) as (st & pa & H1 & H2 & H3).
        exists st, pa. repeat split; [assumption | | assumption].
        apply in_or_app. now right.
    + now apply Hexit.
    + rewrite count_app, Hs0. now apply (Hexit st).
    + intros Hst. apply Hmiss in Hst as [p Hp]. exists p.
      apply in_or_app. now right.
    + intros [p He]. apply in_app_or in He as [He|He].
      * destruct (Hout _ He). discriminate.
      * apply Hmiss. now exists p.
Qed.

Lemma handle_http_request_well_behaved k fd cache (h : heap cache_t) :
  exists r rv t,
    handle_http_request k fd cache h = (r, h, EvRecv fd 65535 rv :: t)
    /\ well_behaved fd r t.
Proof.
  destruct (handle_http_request_cases k fd cache h)
    as (r & rv & t & Hrun & [(_ & Hr & Ht)|[_ Hr]]);
    exists r, rv, t; (split; [exact Hrun|]);
    [subst r t|now apply (routed_well_behaved k)].
  unfold well_behaved. split; [cbn; lia|].
  split; [constructor; [exact I | constructor]|].
  split; [intros fd' bytes rv' [|[]]; discriminate|].
  split; [discriminate|].
  split; [intros [st Hst]; discriminate|].
  intros [p [|[]]]. discriminate.
Qed.

(** X1: send_response either stops before anything is sent, because one
    of its strings is not terminated, or calls [send] once, with at most
    262143 bytes free of NUL, returns what [send] returned and reports a
    failure exactly when that is negative.  The heap is left alone. *)
Theorem send_response_sends_once k fd header content_type body n
    (h : heap cache_t) :
  send_response k fd header content_type body n h = (Fault, h, [])
  \/ exists bytes,
       strlen bytes <= 262143 /\ has_nul bytes = false
       /\ send_response k fd header content_type body n h =
            (Ret (send_rv k bytes), h,
             EvSend fd bytes (send_rv k bytes)
             :: (if send_rv k bytes <? 0 then [EvPerror "send"] else [])).
Proof.
  destruct (send_response_cases k fd header content_type body n h)
    as [Hf|(hs & d & t & b & Hh & Hd & Ht & Hb & Hrun)]; [now left|].
  right. exists (take 262143 (layout hs d n t b)). repeat split.
  - apply (strlen_take 262143).
  - apply has_nul_take, layout_clean; eauto using c_str_clean.
  - exact Hrun.
Qed.

(** X2: whatever arrives on a connection, handle_http_request loads at
    most one file and sends at most one buffer, and sends none unless it
    loaded a file. *)
Theorem at_most_one_response k fd cache (h : heap cache_t) :
  let t := snd (handle_http_request k fd cache h) in
  (count is_send t <= count is_load t <= 1)%nat.
Proof.
  destruct (handle_http_request_well_behaved k fd cache h)
    as (r & rv & t & -> & Hcount & _).
  exact Hcount.
Qed.

(** X3: whatever arrives on a connection, the only files that
    handle_http_request asks for are [./serverroot/profile.html],
    [./serverroot/index.html] and [./serverfiles/404.html]: nothing of the
    request reaches a file name. *)
Theorem only_fixed_files_loaded k fd cache (h : heap cache_t) :
  Forall fixed_file (snd (handle_http_request k fd cache h)).
Proof.
  destruct (handle_http_request_well_behaved k fd cache h)
    as (r & rv & t & -> & _ & Hall & _).
  cbn [snd]. constructor; [exact I|].
  eapply Forall_impl; [|exact Hall]. intros [] He; try exact I. exact He.
Qed.

(** X4: every buffer that handle_http_request sends goes to the connection
    it was given, has at most 262143 bytes and holds no NUL byte. *)
Theorem sends_are_bounded k fd cache (h : heap cache_t) :
  Forall (bounded_send fd) (snd (handle_http_request k fd cache h)).
Proof.
  destruct (handle_http_request_well_behaved k fd cache h)
    as (r & rv & t & -> & _ & Hall & _).
  cbn [snd]. constructor; [exact I|].
  eapply Forall_impl; [|exact Hall]. intros [] He; try exact I. exact He.
Qed.

(** X5: a buffer sent by handle_http_request begins with the status line
    that goes with a file loaded in the same run: [HTTP/1.1 200 OK] with
    profile.html or index.html, [HTTP/1.1 404 NOT FOUND] with 404.html. *)
Theorem status_follows_file k fd cache (h : heap cache_t) fd' bytes rv :
  In (EvSend fd' bytes rv) (snd (handle_http_request k fd cache h)) ->
  exists status path,
    In (status, path) routes
    /\ In (EvFileLoad path true) (snd (handle_http_request k fd cache h))
    /\ String.prefix (status ++ LF) bytes = true.
Proof.
  destruct (handle_http_request_well_behaved k fd cache h)
    as (r & rv' & t & -> & _ & _ & Hsend & _).
  cbn [snd]. intros [Hbad|He]; [discriminate|].
  destruct (Hsend _ _ _ He) as (status & path & H1 & H2 & H3).
  exists status, path. repeat split; [assumption | now right | assumption].
Qed.




(** *** The connection loop *)

Lemma handle_http_request_outcome k fd cache (h : heap cache_t) :
  exists r t,
    handle_http_request k fd cache h = (r, h, t)
    /\ (r = Ret tt \/ r = Fault
        \/ (r = Exit 3 /\ exists p, In (EvFileLoad p false) t)).
Proof.
  destruct (handle_http_request_cases k fd cache h)
    as (r & rv & t & Hrun & Hcase).
  exists r, (EvRecv fd 65535 rv :: t). split; [exact Hrun|].
  destruct Hcase as [(_ & -> & _)|[_ [[-> _]|Hr]]]; [now left | now right; left |].
  destruct Hr as (logs & status & path & t' & -> & _ & _ & Hr).
  destruct Hr as [[-> [msg ->]]|[[-> _]|[-> _]]];
    [|now right; left | now left].
  right. right. split; [reflexivity|]. exists path. right.
  apply in_or_app. right. now left.
Qed.

Lemma greeting addr_mem addr :
  c_str addr_mem = Some addr ->
  format (esc "server: got connection from %s\n") [ArgS addr_mem]
  = Some ("server: got connection from " ++ addr ++ LF).
Proof.
  intros H. cbn [esc format Ascii.eqb Bool.eqb]. rewrite H. reflexivity.
Qed.

Lemma main_loop_accepted listenfd cache a script (h : heap cache_t)
    addr r t :
  newfd a <> -1 -> c_str (peer a) = Some addr ->
  handle_http_request (around a) (newfd a) cache h = (r, h, t) ->
  main_loop listenfd cache (a :: script) h =
    match r with
    | Ret _ =>
        let '(r', h', t') := main_loop listenfd cache script h in
        (r', h',
         EvAccept listenfd (newfd a)
         :: EvStdout ("server: got connection from " ++ addr ++ LF)
         :: t ++ EvClose (newfd a) :: t')%list
    | Exit st =>
        (Exit st, h,
         EvAccept listenfd (newfd a)
         :: EvStdout ("server: got connection from " ++ addr ++ LF) :: t)
    | Fault =>
        (Fault, h,
         EvAccept listenfd (newfd a)
         :: EvStdout ("server: got connection from " ++ addr ++ LF) :: t)
    | Blocked =>
        (Blocked, h,
         EvAccept listenfd (newfd a)
         :: EvStdout ("server: got connection from " ++ addr ++ LF) :: t)
    end.
Proof.
  intros Hfd Haddr Hrun. cbn [Server.main_loop].
  apply Z.eqb_neq in Hfd. rewrite Hfd.
  unfold printf. rewrite (greeting _ addr Haddr).
  cbv [bind need ret emit]. rewrite Hrun. cbn [app].
  destruct r as [[]| | |]; try reflexivity.
  destruct (main_loop listenfd cache script h) as [[r' h'] t'].
  cbn [app]. now rewrite <- app_assoc.
Qed.

Lemma main_loop_cases listenfd cache script (h : heap cache_t) :
  exists r t,
    main_loop listenfd cache script h = (r, h, t)
    /\ (r = Blocked \/ r = Fault
        \/ (r = Exit 3 /\ exists p, In (EvFileLoad p false) t)).
Proof.
  induction script as [|a script (r' & t' & IHrun & IH)].
  - exists Blocked, []. split; [reflexivity | now left].
  - destruct (Z.eqb_spec (newfd a) (-1)) as [Hfail|Hfd].
    + cbn [Server.main_loop]. rewrite Hfail. cbn [Z.eqb Pos.eqb].
      cbv [bind emit perror]. rewrite IHrun. cbn [app].
      eexists _, _. split; [reflexivity|].
      destruct IH as [->|[->|[-> [p Hp]]]]; [now left | now right; left |].
      right. right. split; [reflexivity|]. exists p. now do 2 right.
    + destruct (c_str (peer a)) as [addr|] eqn:Haddr.
      * destruct (handle_http_request_outcome (around a) (newfd a) cache h)
          as (r & t & Hrun & Hr).
        rewrite (main_loop_accepted listenfd cache a script h addr r t
                   Hfd Haddr Hrun).
        destruct Hr as [->|[->|[-> [p Hp]]]].
        -- rewrite IHrun. eexists _, _. split; [reflexivity|].
           destruct IH as [->|[->|[-> [q Hq]]]];
             [now left | now right; left |].
           right. right. split; [reflexivity|]. exists q.
           do 2 right. apply in_or_app. right. now right.
        -- eexists _, _. split; [reflexivity|]. now right; left.
        -- eexists _, _. split; [reflexivity|]. right. right.
           split; [reflexivity|]. exists p. now do 2 right.
      * cbn [Server.main_loop]. apply Z.eqb_neq in Hfd. rewrite Hfd.
        unfold printf. cbv [bind need ret emit fault].
        cbn [esc format Ascii.eqb Bool.eqb]. rewrite Haddr. cbn [app].
        eexists _, _. split; [reflexivity|]. now right; left.
Qed.

(** X7: when no listening socket can be had, main writes one line on the
    error stream and exits with status 1.  The cache has been created by
    then; [accept] is never called, whatever connections are waiting. *)
Theorem listener_failure_exits script (h : heap cache_t) :
  get_listener_socket PORT < 0 ->
  main script h =
    (Exit 1, (h ++ [cache_create 10 0])%list,
     [EvCacheCreate 10 0;
      EvListen PORT (get_listener_socket PORT);
      EvStderr ("webserver: fatal error getting listening socket" ++ LF)]).
Proof.
  intros Hneg. unfold Server.main.
  apply Z.ltb_lt in Hneg. cbv [bind make_cache emit]. rewrite Hneg.
  reflexivity.
Qed.



(** X9: a connection whose request is handled to the end is closed right
    after, and only then is the next [accept] made: the events of the next
    connections all come after the close. *)
Theorem served_connection_is_closed listenfd cache a script
    (h : heap cache_t) addr t :
  newfd a <> -1 -> c_str (peer a) = Some addr ->
  handle_http_request (around a) (newfd a) cache h = (Ret tt, h, t) ->
  main_loop listenfd cache (a :: script) h =
    (let '(r', h', t') := main_loop listenfd cache script h in
     (r', h',
      EvAccept listenfd (newfd a)
      :: EvStdout ("server: got connection from " ++ addr ++ LF)
      :: t ++ EvClose (newfd a) :: t')%list).
Proof.
  intros Hfd Haddr Hrun.
  exact (main_loop_accepted listenfd cache a script h addr (Ret tt) t
           Hfd Haddr Hrun).
Qed.

(** X10: a file missing while one connection is served ends the whole
    server with status 3: that connection is never closed, and the
    connections that follow are never accepted. *)
Theorem fatal_connection_stops_loop listenfd cache a script
    (h : heap cache_t) addr :
  newfd a <> -1 -> c_str (peer a) = Some addr ->
  (exists p, In (EvFileLoad p false)
               (snd (handle_http_request (around a) (newfd a) cache h))) ->
  main_loop listenfd cache (a :: script) h =
    (Exit 3, h,
     EvAccept listenfd (newfd a)
     :: EvStdout ("server: got connection from " ++ addr ++ LF)
     :: snd (handle_http_request (around a) (newfd a) cache h))
  /\ ~ In (EvClose (newfd a)) (snd (main_loop listenfd cache (a :: script) h)).
Proof.
  intros Hfd Haddr Hmiss.
  destruct (handle_http_request_outcome (around a) (newfd a) cache h)
    as (r & t & Hrun & Hr).
  destruct (handle_http_request_well_behaved (around a) (newfd a) cache h)
    as (r0 & rv & t0 & Hrun0 & _ & _ & _ & _ & Hiff).
  rewrite Hrun in Hrun0. injection Hrun0 as <- ->.
  rewrite Hrun in *. cbn [snd] in Hmiss.
  assert (exists st, r = Exit st) as [st Hst].
  { apply Hiff. destruct Hmiss as [p [Hbad|Hp]]; [discriminate|].
    now exists p. }
  assert (r = Exit 3) as ->
    by (destruct Hr as [->|[->|[-> _]]]; (discriminate || reflexivity)).
  destruct (confined_handle_http_request (around a) (newfd a) cache)
    as (r1 & t1 & Ht & Hrun1).
  specialize (Hrun1 h). rewrite Hrun in Hrun1. injection Hrun1 as _ <-.
  rewrite (main_loop_accepted listenfd cache a script h addr (Exit 3) _
             Hfd Haddr Hrun).
  split; [reflexivity|]. cbn [snd].
  intros [Hbad|[Hbad|Hbad]]; try discriminate.
  rewrite Forall_forall in Ht. apply Ht in Hbad.
  destruct Hbad as [Hbad|[Hbad|Hbad]]; [exact Hbad | | ]; discriminate.
Qed.

(** *** Requests at the edges *)

Lemma sscanf_blank input :
  skip_space input = "" -> sscanf input "%s %s" = (EOF, []).
Proof.
  intros H. unfold sscanf. cbn [scan Ascii.eqb Bool.eqb]. now rewrite H.
Qed.

Lemma token_trailing m ws :
  has_space m = false -> skip_space ws = "" -> token (m ++ ws) = (m, ws).
Proof.
  intros Hm Hws. destruct ws as [|c ws].
  - rewrite append_nil_r. now apply token_solid.
  - apply token_stops; [assumption|].
    cbn in Hws. destruct (isspace c); [reflexivity | discriminate].
Qed.

Lemma sscanf_single m ws :
  m <> "" -> has_space m = false -> skip_space ws = "" ->
  sscanf (m ++ ws) "%s %s" = (1, [m]).
Proof.
  intros Hne Hm Hws. unfold sscanf. cbn [scan Ascii.eqb Bool.eqb].
  rewrite (skip_space_word m ws Hne Hm).
  destruct (m ++ ws) as [|x s] eqn:E.
  { destruct m; [contradiction | discriminate]. }
  rewrite <- E, (token_trailing m ws Hm Hws).
  change (isspace " ") with true. cbn iota. cbn [app].
  assert (skip_space (skip_space ws) = "") as -> by now rewrite Hws.
  reflexivity.
Qed.

(** X11: of the bytes that arrive, only the first 65535 count: two
    connections that differ in nothing but what comes after them are
    handled in the same way. *)
Theorem only_first_65535_bytes_matter k fd cache (h : heap cache_t) b1 b2 :
  take 65535 b1 = take 65535 b2 ->
  handle_http_request (with_incoming k (Some b1)) fd cache h =
  handle_http_request (with_incoming k (Some b2)) fd cache h.
Proof.
  intros Hsame.
  rewrite (handle_http_request_received (with_incoming k (Some b1))
             fd cache h b1 eq_refl).
  rewrite (handle_http_request_received (with_incoming k (Some b2))
             fd cache h b2 eq_refl).
  rewrite Hsame. reflexivity.
Qed.

(** X12: a request without any token (empty, or white space only) assigns
    nothing: the method compared is the string that the array [type] held
    when the function was entered, and the path handed on is the array
    [path] as it was. *)
Theorem blank_request_uses_stale_arrays k fd cache (h : heap cache_t)
    bytes input m :
  incoming k = Some bytes ->
  c_str (overwrite (request0 k) (take 65535 bytes)) = Some input ->
  skip_space input = "" ->
  c_str (type0 k) = Some m ->
  handle_http_request k fd cache h =
    bind (emit (EvRecv fd 65535 (strlen (take 65535 bytes))))
         (fun _ =>
            let request := overwrite (request0 k) (take 65535 bytes) in
            if String.eqb m "GET"
            then handle_get_request k fd cache (path0 k) request
            else if String.eqb m "POST"
                 then handle_post_request k fd cache (path0 k) request
                 else resp_404 k fd) h.
Proof.
  intros Hin Hreq Hblank Hm.
  rewrite (handle_http_request_received k fd cache h bytes Hin).
  unfold bind at 1 2, emit.
  now rewrite (dispatch_run k fd cache _ h input EOF [] (type0 k) (path0 k) m
                 Hreq (sscanf_blank input Hblank) eq_refl eq_refl Hm).
Qed.

(** X13: a request made of a method and nothing else assigns the method
    only: the path handed to the handlers is the array [path] as it was
    when the function was entered. *)
Theorem method_only_request_uses_stale_path k fd cache (h : heap cache_t)
    bytes m ws :
  incoming k = Some bytes ->
  c_str (overwrite (request0 k) (take 65535 bytes)) = Some (m ++ ws) ->
  m <> "" -> has_space m = false -> strlen m <= 9 ->
  skip_space ws = "" ->
  handle_http_request k fd cache h =
    bind (emit (EvRecv fd 65535 (strlen (take 65535 bytes))))
         (fun _ =>
            let request := overwrite (request0 k) (take 65535 bytes) in
            if String.eqb m "GET"
            then handle_get_request k fd cache (path0 k) request
            else if String.eqb m "POST"
                 then handle_post_request k fd cache (path0 k) request
                 else resp_404 k fd) h.
Proof.
  intros Hin Hreq Hne Hm Hlen Hws.
  assert (has_nul m = false) as Hclean.
  { apply c_str_clean in Hreq. rewrite has_nul_app in Hreq.
    now apply orb_false_elim in Hreq. }
  rewrite (handle_http_request_received k fd cache h bytes Hin).
  unfold bind at 1 2, emit.
  rewrite (dispatch_run k fd cache _ h (m ++ ws) 1 [m]
             (overwrite (type0 k) (lit m)) (path0 k) m
             Hreq (sscanf_single m ws Hne Hm Hws)).
  - reflexivity.
  - unfold assigned. cbn [nth_error]. apply store_fits. lia.
  - reflexivity.
  - now apply c_str_lit_app.
Qed.

(** X14: what follows the second token of a request (the protocol
    version, the headers, the body) has no part in the answer: two request
    buffers that scan to the same strings end in the same way and cause the
    same events, lines on the standard output aside. *)
Theorem rest_of_request_is_ignored k fd cache (h : heap cache_t)
    request1 request2 input1 input2 :
  c_str request1 = Some input1 -> c_str request2 = Some input2 ->
  snd (sscanf input1 "%s %s") = snd (sscanf input2 "%s %s") ->
  fst (dispatch k fd cache request1 h) = fst (dispatch k fd cache request2 h)
  /\ filter (fun e => negb (is_stdout e))
       (snd (dispatch k fd cache request1 h))
     = filter (fun e => negb (is_stdout e))
         (snd (dispatch k fd cache request2 h)).
Proof.
  intros H1 H2 Hsame. unfold Server.dispatch. rewrite H1, H2.
  cbv [bind need ret fault assign].
  destruct (sscanf input1 "%s %s") as [rv1 got].
  destruct (sscanf input2 "%s %s") as [rv2 got2].
  cbn [snd] in Hsame. subst got2.
  destruct (assigned 10 (type0 k) got 0) as [type|]; [|now split].
  destruct (assigned 107 (path0 k) got 1) as [path|]; [|now split].
  destruct (strcmp type (lit "GET")) as [is_get|]; [|now split].
  destruct (is_get =? 0); [now split|].
  destruct (strcmp type (lit "POST")) as [is_post|]; [|now split].
  destruct (is_post =? 0); [|now split].
  unfold Server.handle_post_request. run.
  cbn [format Ascii.eqb Bool.eqb]. rewrite H1, H2.
  destruct (resp_404 k fd h) as [[r h'] t]. now split.
Qed.

(** X15: handle_get_request has an array of its own, [prof], of 100
    bytes: a path [/profile/<token>] with a token of 100 characters or
    more makes the scan write past its end. *)
Theorem long_profile_token_overruns_prof k fd cache (h : heap cache_t)
    path request tok :
  c_str path = Some ("/profile/" ++ tok) ->
  has_space tok = false -> 99 < strlen tok ->
  handle_get_request k fd cache path request h =
    (Fault, h, [EvStdout ("GET: /profile/" ++ tok)]).
Proof.
  intros Hp Hs Hlen. unfold Server.handle_get_request. run.
  cbn [format Ascii.eqb Bool.eqb]. rewrite Hp. run.
  assert (tok <> "") as Hne.
  { intros ->. change (strlen "") with 0 in Hlen. lia. }
  destruct (sscanf_profile ("/profile/" ++ tok)) as [Hyes _].
  { rewrite has_space_app. now rewrite Hs. }
  rewrite (Hyes tok Hne eq_refl). unfold assigned. cbn [nth_error].
  rewrite store_overflow by lia. now rewrite append_nil_r.
Qed.

(** X16: resp_file appends the request path to the document root as it
    is, [..] segments included, and cuts the result to 4095 characters;
    that is the file it asks for. *)
Theorem resp_file_path_is_verbatim k fd cache request_path rp
    (h : heap cache_t) :
  c_str request_path = Some rp ->
  (exists r found t,
     resp_file k fd cache request_path h =
       (r, h, EvFileLoad (take 4095 (SERVER_ROOT ++ rp)) found :: t))
  /\ (strlen rp <= 4083 -> take 4095 (SERVER_ROOT ++ rp) = SERVER_ROOT ++ rp).
Proof.
  intros Hp. split.
  - destruct (resp_file_responded k fd cache request_path rp h Hp)
      as (r & t & Hrun & [[-> [msg ->]]|[[-> ->]|[-> (d & n & mt & b & _ & _ & _ & ->)]]]);
      rewrite Hrun; eauto.
  - intros Hlen. apply take_all. rewrite strlen_app.
    change (strlen SERVER_ROOT) with 12. lia.
Qed.

Lemma skip_space_app_blank ws s :
  skip_space ws = "" -> skip_space (ws ++ s) = skip_space s.
Proof.
  induction ws as [|c ws IH]; cbn; [reflexivity|].
  destruct (isspace c); [exact IH | discriminate].
Qed.

Lemma token_before t rest :
  has_space t = false ->
  rest = "" \/ (exists c r, rest = String c r /\ isspace c = true) ->
  token (t ++ rest) = (t, rest).
Proof.
  intros Ht [->|(c & r & -> & Hc)].
  - rewrite append_nil_r. now apply token_solid.
  - now apply token_stops.
Qed.

Lemma sscanf_request_line_spaced ws0 m ws1 p rest :
  skip_space ws0 = "" ->
  m <> "" -> has_space m = false ->
  ws1 <> "" -> skip_space ws1 = "" ->
  p <> "" -> has_space p = false ->
  rest = "" \/ (exists c r, rest = String c r /\ isspace c = true) ->
  sscanf (ws0 ++ m ++ ws1 ++ p ++ rest) "%s %s" = (2, [m; p]).
Proof.
  intros H0 Hm Hms H1 H1s Hp Hps Hrest.
  unfold sscanf. cbn [scan Ascii.eqb Bool.eqb].
  rewrite (skip_space_app_blank ws0 _ H0), (skip_space_word m _ Hm Hms).
  destruct (m ++ ws1 ++ p ++ rest) as [|x s] eqn:E.
  { destruct m; [contradiction | discriminate]. }
  rewrite <- E. rewrite (token_before m (ws1 ++ p ++ rest) Hms).
  2:{ right. destruct ws1 as [|c ws1]; [contradiction|].
      exists c, (ws1 ++ p ++ rest). split; [reflexivity|].
      cbn in H1s. destruct (isspace c); [reflexivity | discriminate]. }
  change (isspace " ") with true. cbn iota. cbn [app].
  rewrite !(skip_space_app_blank ws1 _ H1s), !(skip_space_word p _ Hp Hps).
  destruct (p ++ rest) as [|y s'] eqn:E'.
  { destruct p; [contradiction | discriminate]. }
  rewrite <- E'. now rewrite (token_before p rest Hps Hrest).
Qed.

(** X17: the request line is read by white space alone.  Whatever white
    space comes first, whatever run of white space separates the method
    from the path, and whatever follows the path after a white space, a
    method of at most 9 and a path of at most 106 characters are taken
    whole, and the method selects the handler that gets that path. *)
Theorem request_line_is_tokenised k fd cache (h : heap cache_t)
    bytes ws0 m ws1 p rest :
  incoming k = Some bytes ->
  c_str (overwrite (request0 k) (take 65535 bytes))
    = Some (ws0 ++ m ++ ws1 ++ p ++ rest) ->
  skip_space ws0 = "" ->
  m <> "" -> has_space m = false -> strlen m <= 9 ->
  ws1 <> "" -> skip_space ws1 = "" ->
  p <> "" -> has_space p = false -> strlen p <= 106 ->
  rest = "" \/ (exists c r, rest = String c r /\ isspace c = true) ->
  handle_http_request k fd cache h =
    bind (emit (EvRecv fd 65535 (strlen (take 65535 bytes))))
         (fun _ =>
            let request := overwrite (request0 k) (take 65535 bytes) in
            let path := overwrite (path0 k) (lit p) in
            if String.eqb m "GET"
            then handle_get_request k fd cache path request
            else if String.eqb m "POST"
                 then handle_post_request k fd cache path request
                 else resp_404 k fd) h
  /\ c_str (overwrite (path0 k) (lit p)) = Some p.
Proof.
  intros Hin Hreq H0 Hm Hms Hml H1 H1s Hp Hps Hpl Hrest.
  pose proof (c_str_clean _ _ Hreq) as Hclean.
  rewrite !has_nul_app in Hclean.
  apply orb_false_elim in Hclean as [_ Hclean].
  apply orb_false_elim in Hclean as [Hmc Hclean].
  apply orb_false_elim in Hclean as [_ Hclean].
  apply orb_false_elim in Hclean as [Hpc _].
  split; [|now apply c_str_lit_app].
  rewrite (handle_http_request_received k fd cache h bytes Hin).
  unfold bind at 1 2, emit.
  rewrite (dispatch_run k fd cache _ h _ 2 [m; p]
             (overwrite (type0 k) (lit m)) (overwrite (path0 k) (lit p)) m
             Hreq
             (sscanf_request_line_spaced ws0 m ws1 p rest
                H0 Hm Hms H1 H1s Hp Hps Hrest)).
  - reflexivity.
  - unfold assigned. cbn [nth_error]. apply store_fits. lia.
  - unfold assigned. cbn [nth_error]. apply store_fits. lia.
  - now apply c_str_lit_app.
Qed.

End ServerFacts.

(** ** Concrete runs *)

Lemma get_request_is_served_witness :
  handle_http_request (cache_t := unit) Sample.files Sample.mime
    (Sample.talking Sample.get_profile) 4 0%nat []
  = (Ret tt, [],
     [EvRecv 4 65535 31;
      EvStdout "GET: /profile/alice";
      EvFileLoad "./serverroot/profile.html" true;
      EvSend 4
        (esc "HTTP/1.1 200 OK\nDate: Thu Jan  1 00:00:00 1970\nConnection: close\nContent-Length: 16\nContent-Type: text/html\n\n<h1>profile</h1>")
        125]).
Proof.
  refine (eq_trans
    (get_request_is_served Sample.files Sample.mime
       (Sample.talking Sample.get_profile) 4 0%nat []
       Sample.get_profile Sample.get_profile 2 "/profile/alice"
       "/profile.html" Sample.profile_html "<h1>profile</h1>"
       "text/html" (esc "Thu Jan  1 00:00:00 1970\n") _ _ _ _ _ _ _ _ _) _).
  - vm_compute. reflexivity.
  - vm_compute. reflexivity.
  - vm_compute. reflexivity.
  - vm_compute. discriminate.
  - left. split; [|reflexivity]. exists "alice".
    split; [discriminate | reflexivity].
  - vm_compute. reflexivity.
  - vm_compute. reflexivity.
  - vm_compute. reflexivity.
  - vm_compute. reflexivity.
  - vm_compute. reflexivity.
Defined.

Lemma dispatch_by_method_witness :
  handle_http_request (cache_t := unit) Sample.files Sample.mime
    (Sample.talking Sample.post_save) 4 0%nat []
  = (Ret tt, [],
     [EvRecv 4 65535 28;
      EvStdout ("POST: " ++ Sample.post_save);
      EvFileLoad "./serverfiles/404.html" true;
      EvSend 4
        (esc "HTTP/1.1 404 NOT FOUND\nDate: Thu Jan  1 00:00:00 1970\nConnection: close\nContent-Length: 18\nContent-Type: text/html\n\n<h1>not found</h1>")
        134]).
Proof.
  refine (eq_trans (proj1 (proj2
    (dispatch_by_method Sample.files Sample.mime
       (Sample.talking Sample.post_save) 4 0%nat []
       Sample.post_save Sample.post_save 2 ["POST"; "/save"]
       (overwrite (zeroed 10) (lit "POST"))
       (overwrite (zeroed 107) (lit "/save"))
       "POST" Sample.e404_html "<h1>not found</h1>" "text/html"
       (esc "Thu Jan  1 00:00:00 1970\n") _ _ _ _ _ _ _ _ _ _)) _) _);
    vm_compute; reflexivity.
Defined.

Lemma missing_file_is_fatal_witness :
  resp_404 (cache_t := unit) Sample.no_files Sample.mime
    (Sample.talking Sample.post_save) 4 []
  = (Exit 3, [],
     [EvFileLoad "./serverfiles/404.html" false;
      EvStderr (esc "cannot find system 404 file\n")])
  /\ resp_file (cache_t := unit) Sample.no_files Sample.mime
       (Sample.talking Sample.get_home) 4 0%nat (lit "/index.html") []
     = (Exit 3, [],
        [EvFileLoad "./serverroot/index.html" false;
         EvStderr (esc "cannot find system /index.html file\n")]).
Proof.
  split.
  - refine (eq_trans
      (proj1 (missing_file_is_fatal Sample.no_files Sample.mime
                (Sample.talking Sample.post_save) 4 0%nat
                (lit "/index.html") "/index.html" []) _) _);
      vm_compute; reflexivity.
  - refine (eq_trans
      (proj2 (missing_file_is_fatal Sample.no_files Sample.mime
                (Sample.talking Sample.get_home) 4 0%nat
                (lit "/index.html") "/index.html" []) _ _) _);
      vm_compute; reflexivity.
Defined.

Lemma response_layout_witness :
  send_response (cache_t := unit) (Sample.talking Sample.get_home) 4
    (lit "HTTP/1.1 200 OK") (lit "text/html") (lit "<h1>home</h1>") 13 []
  = (Ret 122, [],
     [EvSend 4
        (esc "HTTP/1.1 200 OK\nDate: Thu Jan  1 00:00:00 1970\nConnection: close\nContent-Length: 13\nContent-Type: text/html\n\n<h1>home</h1>")
        122]).
Proof.
  refine (eq_trans
    (proj1 (response_layout (cache_t := unit)
              (Sample.talking Sample.get_home) 4
              (lit "HTTP/1.1 200 OK") (lit "text/html")
              (lit "<h1>home</h1>") 13 []
              "HTTP/1.1 200 OK" (esc "Thu Jan  1 00:00:00 1970\n")
              "text/html" "<h1>home</h1>" _ _ _ _ _)) _);
    vm_compute; (reflexivity || discriminate).
Defined.

Lemma single_bounded_receive_witness :
  handle_http_request (cache_t := unit) Sample.files Sample.mime
    Sample.broken 4 0%nat []
  = (Ret tt, [], [EvRecv 4 65535 (-1); EvPerror "recv"]).
Proof.
  apply (proj2 (single_bounded_receive Sample.files Sample.mime
                  Sample.broken 4 0%nat [])).
  reflexivity.
Defined.

Lemma failed_accept_continues_witness :
  main_loop (cache_t := unit) Sample.files Sample.mime 3 0%nat
    [Sample.failed_accept; Sample.visit 4 Sample.get_home] []
  = (Blocked, [],
     [EvAccept 3 (-1); EvPerror "accept";
      EvAccept 3 4;
      EvStdout (esc "server: got connection from 10.0.0.1\n");
      EvRecv 4 65535 18;
      EvStdout "GET: /";
      EvFileLoad "./serverroot/index.html" true;
      EvSend 4
        (esc "HTTP/1.1 200 OK\nDate: Thu Jan  1 00:00:00 1970\nConnection: close\nContent-Length: 13\nContent-Type: text/html\n\n<h1>home</h1>")
        122;
      EvClose 4]).
Proof.
  refine (eq_trans
    (proj1 (failed_accept_continues Sample.files Sample.mime 3 0%nat
              Sample.failed_accept [Sample.visit 4 Sample.get_home] [] _))
    _).
  - reflexivity.
  - vm_compute. reflexivity.
Defined.

Lemma zero_byte_receive_is_dispatched_witness :
  handle_http_request (cache_t := unit) Sample.files Sample.mime
    (Sample.silent_over Sample.get_profile) 4 0%nat []
  = (Ret tt, [],
     [EvRecv 4 65535 0;
      EvStdout "GET: /profile/alice";
      EvFileLoad "./serverroot/profile.html" true;
      EvSend 4
        (esc "HTTP/1.1 200 OK\nDate: Thu Jan  1 00:00:00 1970\nConnection: close\nContent-Length: 16\nContent-Type: text/html\n\n<h1>profile</h1>")
        125]).
Proof.
  refine (eq_trans
    (proj1 (proj2 (proj2
       (zero_byte_receive_is_dispatched Sample.files Sample.mime
          (Sample.silent_over Sample.get_profile) 4 0%nat [] _)))
       Sample.get_profile 2 ["GET"; "/profile/alice"]
       (overwrite (zeroed 10) (lit "GET"))
       (overwrite (zeroed 107) (lit "/profile/alice"))
       "GET" _ _ _ _ _) _).
  - reflexivity.
  - vm_compute. reflexivity.
  - vm_compute. reflexivity.
  - vm_compute. reflexivity.
  - vm_compute. reflexivity.
  - vm_compute. reflexivity.
  - vm_compute. reflexivity.
Defined.

(** C4: a body with an embedded NUL.  The file has three bytes and the
    header announces three, yet one byte follows the empty line: [%s]
    stops at the NUL. *)
Theorem embedded_nul_cuts_body :
  send_response (cache_t := unit) (Sample.talking Sample.get_home) 4
    (lit "HTTP/1.1 200 OK") (lit "text/html") Sample.binary_body 3 []
  = (Ret 109, [],
     [EvSend 4
        (Spec.head "HTTP/1.1 200 OK" (esc "Thu Jan  1 00:00:00 1970\n") 3
           "text/html" ++ "a")
        109])
  /\ Spec.head "HTTP/1.1 200 OK" (esc "Thu Jan  1 00:00:00 1970\n") 3
       "text/html"
     = esc "HTTP/1.1 200 OK\nDate: Thu Jan  1 00:00:00 1970\nConnection: close\nContent-Length: 3\nContent-Type: text/html\n\n"
  /\ strlen Sample.binary_body = 3
  /\ strlen "a" <> 3.
Proof.
  split; [vm_compute; reflexivity|].
  split; [vm_compute; reflexivity|].
  split; [vm_compute; reflexivity|].
  vm_compute. discriminate.
Qed.

(** C7: a method of ten characters.  The scan assigns all ten, which with
    the terminator is one byte more than [type] holds; the store runs past
    the end of the array. *)
Theorem long_method_overruns_type :
  sscanf Sample.long_method "%s %s" = (2, ["AAAAAAAAAA"; "/"])
  /\ strlen "AAAAAAAAAA" = 10
  /\ store 10 (zeroed 10) "AAAAAAAAAA" = None
  /\ handle_http_request (cache_t := unit) Sample.files Sample.mime
       (Sample.talking Sample.long_method) 4 0%nat []
     = (Fault, [], [EvRecv 4 65535 25]).
Proof.
  repeat split; vm_compute; reflexivity.
Qed.

(** ** Concrete runs for the further properties *)

Lemma status_follows_file_witness :
  exists status path,
    In (status, path) routes
    /\ In (EvFileLoad path true)
         (snd (handle_http_request (cache_t := unit) Sample.files Sample.mime
                 (Sample.talking Sample.post_save) 4 0%nat []))
    /\ String.prefix (status ++ LF)
         (esc "HTTP/1.1 404 NOT FOUND\nDate: Thu Jan  1 00:00:00 1970\nConnection: close\nContent-Length: 18\nContent-Type: text/html\n\n<h1>not found</h1>")
       = true.
Proof.
  apply (status_follows_file Sample.files Sample.mime
           (Sample.talking Sample.post_save) 4 0%nat [] 4 _ 134).
  vm_compute. do 3 right. left. reflexivity.
Defined.


Lemma listener_failure_exits_witness :
  main Cases.new_cache Sample.files Sample.mime Cases.no_listener
    [Sample.visit 4 Sample.get_home] []
  = (Exit 1, [(10, 0)],
     [EvCacheCreate 10 0; EvListen "80" (-1);
      EvStderr (esc "webserver: fatal error getting listening socket\n")]).
Proof.
  refine (eq_trans
    (listener_failure_exits Cases.new_cache Sample.files Sample.mime
       Cases.no_listener [Sample.visit 4 Sample.get_home] [] _) _).
  - reflexivity.
  - vm_compute. reflexivity.
Defined.


Lemma served_connection_is_closed_witness :
  main_loop (cache_t := unit) Sample.files Sample.mime 3 0%nat
    [Sample.visit 4 Sample.get_home; Sample.failed_accept] []
  = (Blocked, [],
     [EvAccept 3 4;
      EvStdout (esc "server: got connection from 10.0.0.1\n");
      EvRecv 4 65535 18;
      EvStdout "GET: /";
      EvFileLoad "./serverroot/index.html" true;
      EvSend 4
        (esc "HTTP/1.1 200 OK\nDate: Thu Jan  1 00:00:00 1970\nConnection: close\nContent-Length: 13\nContent-Type: text/html\n\n<h1>home</h1>")
        122;
      EvClose 4;
      EvAccept 3 (-1); EvPerror "accept"]).
Proof.
  refine (eq_trans
    (served_connection_is_closed Sample.files Sample.mime 3 0%nat
       (Sample.visit 4 Sample.get_home) [Sample.failed_accept] []
       "10.0.0.1"
       [EvRecv 4 65535 18;
        EvStdout "GET: /";
        EvFileLoad "./serverroot/index.html" true;
        EvSend 4
          (esc "HTTP/1.1 200 OK\nDate: Thu Jan  1 00:00:00 1970\nConnection: close\nContent-Length: 13\nContent-Type: text/html\n\n<h1>home</h1>")
          122] _ _ _) _).
  - vm_compute. discriminate.
  - vm_compute. reflexivity.
  - vm_compute. reflexivity.
  - vm_compute. reflexivity.
Defined.

Lemma fatal_connection_stops_loop_witness :
  main_loop (cache_t := unit) Sample.no_files Sample.mime 3 0%nat
    [Sample.visit 4 Sample.get_home; Sample.visit 5 Sample.get_profile] []
  = (Exit 3, [],
     [EvAccept 3 4;
      EvStdout (esc "server: got connection from 10.0.0.1\n");
      EvRecv 4 65535 18;
      EvStdout "GET: /";
      EvFileLoad "./serverroot/index.html" false;
      EvStderr (esc "cannot find system /index.html file\n")]).
Proof.
  refine (eq_trans
    (proj1 (fatal_connection_stops_loop Sample.no_files Sample.mime 3 0%nat
              (Sample.visit 4 Sample.get_home)
              [Sample.visit 5 Sample.get_profile] [] "10.0.0.1" _ _ _)) _).
  - vm_compute. discriminate.
  - vm_compute. reflexivity.
  - exists "./serverroot/index.html". vm_compute. do 2 right. left.
    reflexivity.
  - vm_compute. reflexivity.
Defined.

Lemma only_first_65535_bytes_matter_witness :
  handle_http_request (cache_t := unit) Sample.files Sample.mime
    (with_incoming (Sample.talking "") (Some (Cases.oversized "A")))
    4 0%nat []
  = handle_http_request (cache_t := unit) Sample.files Sample.mime
      (with_incoming (Sample.talking "") (Some (Cases.oversized "BCD")))
      4 0%nat [].
Proof.
  apply (only_first_65535_bytes_matter Sample.files Sample.mime
           (Sample.talking "") 4 0%nat []
           (Cases.oversized "A") (Cases.oversized "BCD")).
  unfold Cases.oversized.
  rewrite <- !CStringFacts.append_assoc.
  rewrite !CStringFacts.take_app by (vm_compute; discriminate).
  replace (65535 - strlen (Sample.get_home ++ Cases.fill (Z.to_nat 65517) "x"))
    with 0 by (vm_compute; reflexivity).
  reflexivity.
Defined.

Lemma blank_request_uses_stale_arrays_witness :
  handle_http_request (cache_t := unit) Sample.files Sample.mime
    Cases.stale_get 4 0%nat []
  = (Ret tt, [],
     [EvRecv 4 65535 2;
      EvStdout "GET: ";
      EvFileLoad "./serverroot/index.html" true;
      EvSend 4
        (esc "HTTP/1.1 200 OK\nDate: Thu Jan  1 00:00:00 1970\nConnection: close\nContent-Length: 13\nContent-Type: text/html\n\n<h1>home</h1>")
        122]).
Proof.
  refine (eq_trans
    (blank_request_uses_stale_arrays Sample.files Sample.mime
       Cases.stale_get 4 0%nat [] "  " "  " "GET" _ _ _ _) _);
    vm_compute; reflexivity.
Defined.

Lemma method_only_request_uses_stale_path_witness :
  handle_http_request (cache_t := unit) Sample.files Sample.mime
    (Sample.talking "GET") 4 0%nat []
  = (Ret tt, [],
     [EvRecv 4 65535 3;
      EvStdout "GET: ";
      EvFileLoad "./serverroot/index.html" true;
      EvSend 4
        (esc "HTTP/1.1 200 OK\nDate: Thu Jan  1 00:00:00 1970\nConnection: close\nContent-Length: 13\nContent-Type: text/html\n\n<h1>home</h1>")
        122]).
Proof.
  refine (eq_trans
    (method_only_request_uses_stale_path Sample.files Sample.mime
       (Sample.talking "GET") 4 0%nat [] "GET" "GET" "" _ _ _ _ _ _) _).
  - vm_compute. reflexivity.
  - vm_compute. reflexivity.
  - discriminate.
  - vm_compute. reflexivity.
  - vm_compute. discriminate.
  - vm_compute. reflexivity.
  - vm_compute. reflexivity.
Defined.

Lemma rest_of_request_is_ignored_witness :
  fst (dispatch (cache_t := unit) Sample.files Sample.mime
         (Sample.talking "") 4 0%nat (lit Sample.get_home) [])
  = fst (dispatch (cache_t := unit) Sample.files Sample.mime
           (Sample.talking "") 4 0%nat (lit Cases.get_home_with_headers) [])
  /\ filter (fun e => negb (is_stdout e))
       (snd (dispatch (cache_t := unit) Sample.files Sample.mime
               (Sample.talking "") 4 0%nat (lit Sample.get_home) []))
     = filter (fun e => negb (is_stdout e))
         (snd (dispatch (cache_t := unit) Sample.files Sample.mime
                 (Sample.talking "") 4 0%nat
                 (lit Cases.get_home_with_headers) [])).
Proof.
  apply (rest_of_request_is_ignored Sample.files Sample.mime
           (Sample.talking "") 4 0%nat []
           (lit Sample.get_home) (lit Cases.get_home_with_headers)
           Sample.get_home Cases.get_home_with_headers);
    vm_compute; reflexivity.
Defined.

Lemma long_profile_token_overruns_prof_witness :
  handle_get_request (cache_t := unit) Sample.files Sample.mime
    (Sample.talking "") 4 0%nat
    (lit ("/profile/" ++ Cases.fill 100 "a")) (lit "") []
  = (Fault, [], [EvStdout ("GET: /profile/" ++ Cases.fill 100 "a")]).
Proof.
  apply (long_profile_token_overruns_prof Sample.files Sample.mime
           (Sample.talking "") 4 0%nat []
           (lit ("/profile/" ++ Cases.fill 100 "a")) (lit "")
           (Cases.fill 100 "a"));
    vm_compute; reflexivity.
Defined.

Lemma resp_file_path_is_verbatim_witness :
  (exists r found t,
     resp_file (cache_t := unit) Sample.files Sample.mime
       (Sample.talking "") 4 0%nat (lit "/../secret.txt") []
     = (r, [],
        EvFileLoad (take 4095 (SERVER_ROOT ++ "/../secret.txt")) found :: t))
  /\ (strlen "/../secret.txt" <= 4083 ->
      take 4095 (SERVER_ROOT ++ "/../secret.txt")
      = SERVER_ROOT ++ "/../secret.txt").
Proof.
  apply (resp_file_path_is_verbatim Sample.files Sample.mime
           (Sample.talking "") 4 0%nat (lit "/../secret.txt")
           "/../secret.txt" []).
  vm_compute. reflexivity.
Defined.

Lemma request_line_is_tokenised_witness :
  handle_http_request (cache_t := unit) Sample.files Sample.mime
    (Sample.talking (esc "\r\n GET\t\t/profile/bob\nHost: example.org\r\n\r\n"))
    4 0%nat []
  = (Ret tt, [],
     [EvRecv 4 65535 42;
      EvStdout "GET: /profile/bob";
      EvFileLoad "./serverroot/profile.html" true;
      EvSend 4
        (esc "HTTP/1.1 200 OK\nDate: Thu Jan  1 00:00:00 1970\nConnection: close\nContent-Length: 16\nContent-Type: text/html\n\n<h1>profile</h1>")
        125]).
Proof.
  refine (eq_trans
    (proj1 (request_line_is_tokenised Sample.files Sample.mime
              (Sample.talking
                 (esc "\r\n GET\t\t/profile/bob\nHost: example.org\r\n\r\n"))
              4 0%nat []
              (esc "\r\n GET\t\t/profile/bob\nHost: example.org\r\n\r\n")
              (esc "\r\n ") "GET" (esc "\t\t") "/profile/bob"
              (esc "\nHost: example.org\r\n\r\n")
              _ _ _ _ _ _ _ _ _ _ _ _)) _).
  - vm_compute. reflexivity.
  - vm_compute. reflexivity.
  - vm_compute. reflexivity.
  - discriminate.
  - vm_compute. reflexivity.
  - vm_compute. discriminate.
  - vm_compute. discriminate.
  - vm_compute. reflexivity.
  - discriminate.
  - vm_compute. reflexivity.
  - vm_compute. discriminate.
  - right. eexists _, _. split; vm_compute; reflexivity.
  - vm_compute. reflexivity.
Defined.
